(** * oas-router: controller resolution and response interception

    A shallow embedding of [src/middleware/oas-router.js].  The router
    resolves a controller and an operation identifier for a request that
    was already matched against the contract, replaces [res.send] by a
    closure that validates the outgoing payload, and calls the handler.

    JavaScript strings are modelled by [string] (one byte per character,
    the ASCII fragment of the language); numbers that occur here are
    status codes, modelled by [Z]. *)

From Stdlib Require Import ZArith Lia Ascii String DecimalString.
From stdpp Require Import base option list strings gmap.

Set Warnings "-register-all".
Local Open Scope string_scope.
Local Arguments String.append : simpl nomatch.

(** ** String primitives of the platform *)

Module JsString.

(** [String.prototype.toUpperCase] and [toLowerCase] on one character of
    the ASCII range (codes below 128), where they change the letters only.
    What they do to other characters is not modelled: a statement about
    the case of a character carries the hypothesis that it is ASCII. *)
Definition upper_char (c : ascii) : ascii :=
  let n := nat_of_ascii c in
  if (97 <=? n)%nat && (n <=? 122)%nat then ascii_of_nat (n - 32) else c.

Definition lower_char (c : ascii) : ascii :=
  let n := nat_of_ascii c in
  if (65 <=? n)%nat && (n <=? 90)%nat then ascii_of_nat (n + 32) else c.

Fixpoint toUpperCase (s : string) : string :=
  match s with
  | EmptyString => EmptyString
  | String c r => String (upper_char c) (toUpperCase r)
  end.

Fixpoint toLowerCase (s : string) : string :=
  match s with
  | EmptyString => EmptyString
  | String c r => String (lower_char c) (toLowerCase r)
  end.

(** [s.split(sep)] for a one-character separator: never empty, and an
    empty piece is kept between two adjacent separators. *)
Fixpoint split (sep : ascii) (s : string) : list string :=
  match s with
  | EmptyString => [EmptyString]
  | String c r =>
      if Ascii.eqb c sep then EmptyString :: split sep r
      else match split sep r with
           | h :: t => String c h :: t
           | [] => [String c EmptyString]
           end
  end.

(** [s.charAt(i)]: the empty string when [i] is out of range. *)
Definition charAt (i : nat) (s : string) : string :=
  match String.get i s with
  | Some c => String c EmptyString
  | None => EmptyString
  end.

(** [s.slice(i)] for [i >= 0]. *)
Definition slice (i : nat) (s : string) : string :=
  String.substring i (String.length s - i) s.

(** [s.substring(a, b)]: both indices are clamped to the length and
    swapped when [a > b]. *)
Definition substring (a b : nat) (s : string) : string :=
  let a' := Nat.min a (String.length s) in
  let b' := Nat.min b (String.length s) in
  String.substring (Nat.min a' b') (Nat.max a' b' - Nat.min a' b') s.

(** Number-to-string conversion of an integer. *)
Definition of_Z (z : Z) : string := NilEmpty.string_of_int (Z.to_int z).

End JsString.

(** ** Naming policy *)

(** Abrupt completions: the two exceptions the router can raise, and
    the [process.exit()] of a failed controller load. *)
Inductive abrupt : Type :=
| TypeError
| SyntaxError
| ProcessExit.

Inductive result (A : Type) : Type :=
| Ok (a : A)
| Throw (e : abrupt).
Arguments Ok {A} a.
Arguments Throw {A} e.

(** [resourceName]: [split("/")[1]] is [undefined] when the path has no
    separator, and [undefined.charAt] raises. *)
Definition resourceName (requestedSpecPath : string) : result string :=
  match JsString.split "/" requestedSpecPath !! 1%nat with
  | Some resource =>
      Ok (JsString.toUpperCase (JsString.charAt 0 resource)
          +:+ JsString.slice 1 resource)
  | None => Throw TypeError
  end.

#[export] Instance result_ret : MRet result := fun A a => Ok a.

#[export] Instance result_bind : MBind result := fun A B k r =>
  match r with
  | Ok a => k a
  | Throw e => Throw e
  end.

Definition generateControllerName (url : string) : result string :=
  r ← resourceName url; Ok (r +:+ "Controller").

Definition nameMethod (method : string) : string :=
  if String.eqb method "GET" then "list"
  else if String.eqb method "POST" then "create"
  else if String.eqb method "PUT" then "update"
  else "delete".


(** ** Data model *)

(** JSON data: what a controller hands to [res.send], what [JSON.parse]
    returns, and the schemas of the contract. *)
Inductive value : Type :=
| VUndefined
| VNull
| VBool (b : bool)
| VNum (n : Z)
| VStr (s : string)
| VArr (items : list value)
| VObj (props : list (string * value)).

(** The contract document, as far as the router reads it:
    [oasDoc.paths[path][method]] is an operation, its
    [responses[code]] may have a [content] section, whose
    ['application/json'] entry carries the [schema]. *)
Record MediaType : Type := { schema : value }.

Record ResponseSpec : Type := { content : option (gmap string MediaType) }.

Record Operation : Type := {
  operationId : option string;
  x_router_controller : option string;
  responses : gmap string ResponseSpec
}.

Record OasDoc : Type := { paths : gmap string (gmap string Operation) }.

(** [config]: the process-wide settings. *)
Record Config : Type := { strict : bool; ignoreUnknownFormats : bool }.

(** One error reported by the validator. *)
Record ValidationError : Type := { code : string; message : string }.

Inductive level : Type := Debug | Info | Warning | Error.

(** The mutable state a request can touch: the response object
    ([statusCode], headers), what the original [send] was given to write,
    and the lines given to the logger.  [sent] has one entry for each call
    of the original send: its first parameter, a string, or [None] for
    [undefined] (an undefined argument, or a call without arguments). *)
Record World : Type := {
  statusCode : Z;
  headers : gmap string string;
  sent : list (option string);
  log : list (level * string)
}.

(** [oasDoc.paths[requestedSpecPath][method]]; reading a property of
    [undefined] raises. *)
Definition operation_of (oasDoc : OasDoc) (requestedSpecPath method : string)
  : result Operation :=
  match paths oasDoc !! requestedSpecPath with
  | Some item =>
      match item !! method with
      | Some op => Ok op
      | None => Throw TypeError
      end
  | None => Throw TypeError
  end.

(** ** A state-and-exception monad for the effectful code *)

Definition M (A : Type) : Type := World -> result A * World.

#[export] Instance M_ret : MRet M := fun A a w => (Ok a, w).

#[export] Instance M_bind : MBind M := fun A B k m w =>
  match m w with
  | (Ok a, w') => k a w'
  | (Throw e, w') => (Throw e, w')
  end.

Definition throw {A : Type} (e : abrupt) : M A := fun w => (Throw e, w).

Definition lift {A : Type} (r : result A) : M A := fun w => (r, w).

Definition get_statusCode : M Z := fun w => (Ok (statusCode w), w).

(** [res.status(c)] *)
Definition res_status (c : Z) : M unit := fun w =>
  (Ok tt, {| statusCode := c; headers := headers w;
             sent := sent w; log := log w |}).

(** [res.header(k, v)] *)
Definition res_header (k v : string) : M unit := fun w =>
  (Ok tt, {| statusCode := statusCode w; headers := <[k:=v]> (headers w);
             sent := sent w; log := log w |}).

(** A call of the original send, whose first parameter is [payload]. *)
Definition oldSend (payload : option string) : M unit := fun w =>
  (Ok tt, {| statusCode := statusCode w; headers := headers w;
             sent := sent w ++ [payload]; log := log w |}).

(** The [arguments] object of a call of [res.send], which the closure
    passes on as [content]: its [length], and its slot [0].  The slot can
    be read and written whatever the length is; the length is the number
    of arguments of the call and no write changes it.  Slots after the
    first are never touched by the router. *)
Record Arguments : Type := { arg_length : nat; arg_0 : option string }.

(** [content[0] = v] *)
Definition set_arg_0 (v : option string) (content : Arguments) : Arguments :=
  {| arg_length := arg_length content; arg_0 := v |}.

(** The first parameter of a function called through
    [f.apply(res, content)]: [apply] hands over the slots below [length],
    so slot [0] arrives only when [length] is not zero. *)
Definition first_param (content : Arguments) : option string :=
  match arg_length content with
  | O => None
  | S _ => arg_0 content
  end.

(** [oldSend.apply(res, content)] *)
Definition oldSend_apply (content : Arguments) : M unit :=
  oldSend (first_param content).

(** [logger.debug], [logger.info], [logger.warning], [logger.error] *)
Definition logger (l : level) (msg : string) : M unit := fun w =>
  (Ok tt, {| statusCode := statusCode w; headers := headers w;
             sent := sent w; log := log w ++ [(l, msg)] |}).

(** String conversion of a value that is a string or [undefined]. *)
Definition show (s : option string) : string := default "undefined" s.

(** ** The external capabilities *)

(** [JSON.stringify] ([None] for [undefined]), [JSON.parse] ([None] when
    it raises), the schema validator ([None] for a falsy [err], else the
    reported errors; its callback runs once), [require] ([None] when the
    module is not found) and [path.join]. *)
Inductive jsval : Type :=
| JUndefined
| JFunction (name : string)
| JObject (props : list (string * jsval)).

(** The request, the two values an upstream middleware leaves in
    [res.locals], and the environment captured by the closure that
    replaces [res.send]. *)
Record Request : Type := { req_method : string; req_path : string }.

Record Locals : Type := { l_oasDoc : OasDoc; l_requestedSpecPath : string }.

Record Interceptor : Type := {
  i_oasDoc : OasDoc;
  i_method : string;
  i_requestedSpecPath : string
}.

(** The three arguments of a handler, and a call of a handler. *)
Inductive Arg : Type :=
| ArgReq (req : Request)
| ArgRes (res : Interceptor)
| ArgNext.

Record Invocation : Type := {
  callee : string;
  this : jsval;
  args : list Arg
}.

(** What one run of the middleware resolved. *)
Record Dispatch : Type := {
  d_controllerName : string;
  d_opID : string;
  d_controller : jsval;
  d_call : Invocation
}.

(** Lookup in the property list of an object. *)
Fixpoint assoc {A : Type} (k : string) (l : list (string * A)) : option A :=
  match l with
  | [] => None
  | (k', a) :: l' => if String.eqb k k' then Some a else assoc k l'
  end.

Class Platform : Type := {
  JSON_stringify : value -> option string;
  JSON_parse : string -> option value;
  validator_validate : value -> value -> option (list ValidationError);
  require : string -> option jsval;
  path_join : string -> string -> string
}.

(** ** Response validation *)

(** [processErr]: every message prefixed by ". ", then the first two
    characters dropped. *)
Definition processErr (err : list ValidationError) : string :=
  let errors :=
    fold_left (fun errors e => errors +:+ ". " +:+ message e) err "" in
  JsString.substring 2 (String.length errors) errors.

Section Router.
Context `{Platform}.
Variable config : Config.

(** [checkResponse]: its last parameter, [content] in the source, is the
    [arguments] object of the call of [res.send]; it is named [arguments]
    here because [content] is also the section of a response. *)
Definition checkResponse (oasDoc : OasDoc) (method requestedSpecPath : string)
    (arguments : Arguments) : M unit :=
  code ← get_statusCode;
  let msg := "" in
  let data := arg_0 arguments in
  logger Debug "Processing at checkResponse:";;
  logger Debug ("  -code: " +:+ JsString.of_Z code);;
  logger Debug ("  -oasDoc: " +:+ "[object Object]");;
  logger Debug ("  -method: " +:+ method);;
  logger Debug ("  -requestedSpecPath: " +:+ requestedSpecPath);;
  logger Debug ("  -data: " +:+ show data);;
  op ← lift (operation_of oasDoc requestedSpecPath method);
  match responses op !! JsString.of_Z code with
  | None =>
      let msg := msg +:+ "Wrong response code: " +:+ JsString.of_Z code in
      if strict config then
        logger Error msg;;
        let arguments :=
          set_arg_0 (JSON_stringify (VObj [("message", VStr msg)])) arguments in
        oldSend_apply arguments
      else
        logger Warning msg;;
        oldSend_apply arguments
  | Some responseCodeSection =>
      match content responseCodeSection with
      | Some c =>
          validSchema ← match c !! "application/json" with
                        | Some mediaType => mret (schema mediaType)
                        | None => throw TypeError
                        end;
          logger Info ("Schema to use for validation: "
                       +:+ show (JSON_stringify validSchema));;
          data ← match JSON_parse (show data) with
                 | Some d => mret d
                 | None => throw SyntaxError
                 end;
          let err := validator_validate data validSchema in
          let msg := match err with
                     | Some e => msg +:+ "Wrong data in the response. "
                                 +:+ processErr e
                     | None => msg
                     end in
          if (0 <? String.length msg)%nat then
            if strict config then
              logger Error msg;;
              let arguments :=
                set_arg_0 (JSON_stringify
                             (VObj [("message", VStr msg); ("content", data)]))
                  arguments in
              res_status 400;;
              oldSend_apply arguments
            else
              logger Warning msg;;
              oldSend_apply arguments
          else
            oldSend_apply arguments
      | None => oldSend_apply arguments
      end
  end.

(** *** Controller and operation resolution *)

Definition existsController (locationOfControllers controllerName : string)
  : M bool :=
  logger Debug "  LOAD CONTROLLERS AT oas-tools.js";;
  match require (path_join locationOfControllers controllerName) with
  | Some _ => mret true
  | None =>
      logger Info ("The controller " +:+ controllerName
                   +:+ " doesn't exist at " +:+ locationOfControllers);;
      mret false
  end.

Definition generateOpId (oasDoc : OasDoc) (requestedSpecPath method : string)
  : result string :=
  op ← operation_of oasDoc requestedSpecPath method;
  match operationId op with
  | Some id => Ok id
  | None => r ← resourceName requestedSpecPath; Ok (nameMethod method +:+ r)
  end.

(** The [if] / [else if] / [else] chain that picks [controllerName]. *)
Definition resolveControllerName (controllers : string) (req : Request)
    (oasDoc : OasDoc) (requestedSpecPath method : string) : M string :=
  op ← lift (operation_of oasDoc requestedSpecPath method);
  match x_router_controller op with
  | Some c => mret c
  | None =>
      probed ← lift (generateControllerName (req_path req));
      existsController controllers probed ≫= λ found : bool,
      if found then lift (generateControllerName requestedSpecPath)
      else mret "Default"
  end.

(** *** Handler invocation *)

(** [context[name]]: own properties of plain objects; a missing property
    is [undefined], a property of [undefined] raises. *)
Definition get_prop (context : jsval) (name : string) : result jsval :=
  match context with
  | JUndefined => Throw TypeError
  | JFunction _ => Ok JUndefined
  | JObject props => Ok (default JUndefined (assoc name props))
  end.

(** The loop [for (i = 0; i < namespaces.length; i++)], with [fuel]
    iterations left. *)
Fixpoint walk (namespaces : list string) (i fuel : nat) (context : jsval)
  : result jsval :=
  match fuel with
  | O => Ok context
  | S fuel' =>
      context' ← get_prop context (default "undefined" (namespaces !! i));
      walk namespaces (S i) fuel' context'
  end.

Definition executeFunctionByName (functionName : string) (context : jsval)
    (req res next : Arg) : result Invocation :=
  let namespaces := JsString.split "." functionName in
  let func := default "undefined" (last namespaces) in
  let namespaces := removelast namespaces in
  context ← walk namespaces 0 (length namespaces) context;
  f ← get_prop context func;
  match f with
  | JFunction name =>
      Ok {| callee := name; this := context; args := [req; res; next] |}
  | _ => Throw TypeError
  end.

(** *** The middleware *)

(** [arguments[0] = JSON.stringify(arguments[0])] on the arguments [args]
    of a call: slot [0] holds the text, of [undefined] when the call has
    no argument, and the length stays the number of arguments. *)
Definition stringify_first (args : list value) : Arguments :=
  {| arg_length := length args;
     arg_0 := JSON_stringify (hd VUndefined args) |}.

(** The closure installed as [res.send], called with the arguments
    [args]. *)
Definition res_send (i : Interceptor) (args : list value) : M unit :=
  let content := stringify_first args in
  res_header "Content-Type" "application/json;charset=utf-8";;
  checkResponse (i_oasDoc i) (i_method i) (i_requestedSpecPath i) content.

Definition OASRouter (controllers : string) (req : Request) (locals : Locals)
  : M Dispatch :=
  let oasDoc := l_oasDoc locals in
  let requestedSpecPath := l_requestedSpecPath locals in
  let method := JsString.toLowerCase (req_method req) in
  controllerName ←
    resolveControllerName controllers req oasDoc requestedSpecPath method;
  opID ← lift (generateOpId oasDoc requestedSpecPath method);
  controller ←
    match require (path_join controllers controllerName) with
    | Some m => mret m
    | None =>
        logger Error ("Controller not found: "
                      +:+ path_join controllers controllerName);;
        throw ProcessExit
    end;
  let res := {| i_oasDoc := oasDoc; i_method := method;
                i_requestedSpecPath := requestedSpecPath |} in
  call ← lift (executeFunctionByName opID controller
                 (ArgReq req) (ArgRes res) ArgNext);
  mret {| d_controllerName := controllerName; d_opID := opID;
          d_controller := controller; d_call := call |}.

End Router.

(** ** Vocabulary of the statements *)

(** The lines a run added to the log end with [(l, msg)], after debug and
    informational lines only. *)
Definition logged (l : level) (msg : string) (w w' : World) : Prop :=
  exists pre, log w' = (log w ++ pre ++ [(l, msg)])%list
              /\ Forall (fun e => fst e = Debug \/ fst e = Info) pre.

Section Branches.
Context `{Platform}.
Variables (oasDoc : OasDoc) (method requestedSpecPath : string).
Variables (content0 : option string) (w : World).

(** The response section looked up for the current status code. *)
Definition declared (responseCodeSection : ResponseSpec) : Prop :=
  exists op, operation_of oasDoc requestedSpecPath method = Ok op
             /\ responses op !! JsString.of_Z (statusCode w)
                = Some responseCodeSection.

Definition undeclared : Prop :=
  exists op, operation_of oasDoc requestedSpecPath method = Ok op
             /\ responses op !! JsString.of_Z (statusCode w) = None.

(** The current status code is declared with a schema for
    ['application/json'], the payload parses to [data], and the
    validator answers [err]. *)
Definition validated (data : value)
    (err : option (list ValidationError)) : Prop :=
  exists responseCodeSection c mediaType,
    declared responseCodeSection
    /\ content responseCodeSection = Some c
    /\ c !! "application/json" = Some mediaType
    /\ JSON_parse (show content0) = Some data
    /\ validator_validate data (schema mediaType) = err.

End Branches.

(** Handler invocation, in the words of its description: follow the
    segments as nested properties, then call the named function of the
    object reached with the request, the response and the continuation. *)
Fixpoint follow (segments : list string) (obj : jsval) : result jsval :=
  match segments with
  | [] => Ok obj
  | seg :: rest => get_prop obj seg ≫= follow rest
  end.

Definition call_handler (obj : jsval) (name : string) (req res next : Arg)
  : result Invocation :=
  f ← get_prop obj name;
  match f with
  | JFunction fname =>
      Ok {| callee := fname; this := obj; args := [req; res; next] |}
  | _ => Throw TypeError
  end.

(** The closure environment that [OASRouter] captures for a request. *)
Definition interceptor_of (req : Request) (locals : Locals) : Interceptor :=
  {| i_oasDoc := l_oasDoc locals;
     i_method := JsString.toLowerCase (req_method req);
     i_requestedSpecPath := l_requestedSpecPath locals |}.

(** ** A concrete platform and contract, for running the router *)

Module Demo.

Definition dquote : string := String "034"%char EmptyString.

Fixpoint escape (s : string) : string :=
  match s with
  | EmptyString => EmptyString
  | String c r =>
      if Ascii.eqb c "034"%char then String "\"%char (String c (escape r))
      else if Ascii.eqb c "\"%char then String c (String c (escape r))
      else String c (escape r)
  end.

Definition quote (s : string) : string := dquote +:+ escape s +:+ dquote.

(** [JSON.stringify] on JSON data: [undefined] has no text, is [null]
    inside an array and is left out of an object. *)
Fixpoint stringify (v : value) : option string :=
  match v with
  | VUndefined => None
  | VNull => Some "null"
  | VBool b => Some (if b then "true" else "false")
  | VNum n => Some (JsString.of_Z n)
  | VStr s => Some (quote s)
  | VArr items =>
      Some ("[" +:+ String.concat ","
              (map (fun x => default "null" (stringify x)) items) +:+ "]")
  | VObj props =>
      Some ("{" +:+ String.concat ","
              (flat_map (fun p => match p with
                                  | (k, x) =>
                                      match stringify x with
                                      | Some t => [quote k +:+ ":" +:+ t]
                                      | None => []
                                      end
                                  end) props) +:+ "}")
  end.

(** [JSON.parse] on the texts of a known, finite set of documents: the
    inverse of [stringify] there, a [SyntaxError] elsewhere. *)
Definition parse (known : list value) (s : string) : option value :=
  List.find (fun v => match stringify v with
                      | Some t => String.eqb t s
                      | None => false
                      end) known.

Definition type_of (v : value) : string :=
  match v with
  | VUndefined => "undefined"
  | VNull => "null"
  | VBool _ => "boolean"
  | VNum _ => "number"
  | VStr _ => "string"
  | VArr _ => "array"
  | VObj _ => "object"
  end.

Definition check_type (sch v : value) : list ValidationError :=
  match sch with
  | VObj ps =>
      match assoc "type" ps with
      | Some (VStr t) =>
          if String.eqb t (type_of v) then []
          else [{| code := "INVALID_TYPE";
                   message := "Expected type " +:+ t
                              +:+ " but found type " +:+ type_of v |}]
      | _ => []
      end
  | _ => []
  end.

(** A validator for the [type] keyword, at the top and one level down
    in [properties]. *)
Definition validate (data sch : value) : option (list ValidationError) :=
  let nested :=
    match sch, data with
    | VObj ps, VObj fields =>
        match assoc "properties" ps with
        | Some (VObj subs) =>
            flat_map (fun p => match assoc (fst p) fields with
                               | Some x => check_type (snd p) x
                               | None => []
                               end) subs
        | _ => []
        end
    | _, _ => []
    end in
  match (check_type sch data ++ nested)%list with
  | [] => None
  | errs => Some errs
  end.

Definition join (dir name : string) : string := dir +:+ "/" +:+ name.

Definition platform (known : list value) (modules : list (string * jsval))
  : Platform :=
  {| JSON_stringify := stringify;
     JSON_parse := parse known;
     validator_validate := validate;
     require := fun file => assoc file modules;
     path_join := join |}.

Definition op (id ctl : option string) (rs : list (string * ResponseSpec))
  : Operation :=
  {| operationId := id; x_router_controller := ctl;
     responses := list_to_map rs |}.

Definition doc (path method : string) (o : Operation) : OasDoc :=
  {| paths := {[ path := {[ method := o ]} ]} |}.

Definition json_body (sch : value) : ResponseSpec :=
  {| content := Some {[ "application/json" := {| schema := sch |} ]} |}.

Definition no_body : ResponseSpec := {| content := None |}.

Definition text_body : ResponseSpec :=
  {| content := Some {[ "text/plain" :=
                          {| schema := VObj [("type", VStr "string")] |} ]} |}.

Definition id_schema : value :=
  VObj [("type", VStr "object");
        ("properties", VObj [("id", VObj [("type", VStr "number")])])].

Definition world (status : Z) : World :=
  {| statusCode := status; headers := ∅; sent := []; log := [] |}.

Definition strict_on : Config :=
  {| strict := true; ignoreUnknownFormats := false |}.

Definition strict_off : Config :=
  {| strict := false; ignoreUnknownFormats := false |}.

Definition bad_id : value := VObj [("id", VStr "x")].
Definition good_id : value := VObj [("id", VNum 7)].

Definition widgets_op : Operation :=
  op None None [("200", json_body id_schema); ("201", no_body);
                ("202", text_body)].

Definition widgets_doc : OasDoc := doc "/widgets" "get" widgets_op.

Definition widgets : Interceptor :=
  {| i_oasDoc := widgets_doc; i_method := "get";
     i_requestedSpecPath := "/widgets" |}.

Definition bad_id_errors : list ValidationError :=
  [{| code := "INVALID_TYPE";
      message := "Expected type number but found type string" |}].

Definition widgets_controller : jsval :=
  JObject [("listWidgets", JFunction "listWidgets");
           ("deleteWidgets", JFunction "deleteWidgets")].

Definition acme_controller : jsval :=
  JObject [("deleteAcme", JFunction "deleteAcme")].

Definition modules : list (string * jsval) :=
  [("controllers/WidgetsController", widgets_controller);
   ("controllers/AcmeController", acme_controller)].

Definition server : Platform := platform [bad_id; good_id] modules.

Definition get_widgets : Request :=
  {| req_method := "GET"; req_path := "/widgets" |}.

Definition widgets_locals : Locals :=
  {| l_oasDoc := widgets_doc; l_requestedSpecPath := "/widgets" |}.

(** A contract whose first path segment is a parameter. *)
Definition tenant_op : Operation := op None None [("200", no_body)].

Definition tenant_doc : OasDoc := doc "/{tenant}/items" "get" tenant_op.

Definition get_acme_items : Request :=
  {| req_method := "GET"; req_path := "/acme/items" |}.

Definition tenant_locals : Locals :=
  {| l_oasDoc := tenant_doc; l_requestedSpecPath := "/{tenant}/items" |}.

End Demo.


(** More requests and contracts for running the router. *)
Module Shop.

(** An operation that names its controller and its handler. *)
Definition items_op : Operation :=
  Demo.op (Some "deleteAcme") (Some "AcmeController") [("200", Demo.no_body)].

Definition items_locals : Locals :=
  {| l_oasDoc := Demo.doc "/items" "get" items_op;
     l_requestedSpecPath := "/items" |}.

Definition get_items : Request :=
  {| req_method := "GET"; req_path := "/stock/items" |}.

Definition items_dispatch : Dispatch :=
  {| d_controllerName := "AcmeController";
     d_opID := "deleteAcme";
     d_controller := Demo.acme_controller;
     d_call := {| callee := "deleteAcme"; this := Demo.acme_controller;
                  args := [ArgReq get_items;
                           ArgRes (interceptor_of get_items items_locals);
                           ArgNext] |} |}.

(** A resource without a controller of its own, in a location without
    a [Default] controller. *)
Definition orders_op : Operation := Demo.op None None [("200", Demo.no_body)].

Definition orders_doc : OasDoc := Demo.doc "/orders" "get" orders_op.

Definition orders_locals : Locals :=
  {| l_oasDoc := orders_doc; l_requestedSpecPath := "/orders" |}.

Definition get_orders : Request :=
  {| req_method := "GET"; req_path := "/orders" |}.

Definition widgets_dispatch : Dispatch :=
  {| d_controllerName := "WidgetsController";
     d_opID := "deleteWidgets";
     d_controller := Demo.widgets_controller;
     d_call := {| callee := "deleteWidgets"; this := Demo.widgets_controller;
                  args := [ArgReq Demo.get_widgets;
                           ArgRes (interceptor_of Demo.get_widgets
                                     Demo.widgets_locals);
                           ArgNext] |} |}.

(** The arguments of [res.send(text)] after the first is stringified,
    and those of [res.send()]. *)
Definition one_argument (text : option string) : Arguments :=
  {| arg_length := 1; arg_0 := text |}.

Definition no_argument : Arguments := {| arg_length := 0; arg_0 := None |}.

(** A controller with a nested namespace. *)
Definition admin_controller : jsval :=
  JObject [("admin", JObject [("purge", JFunction "purge")])].

End Shop.

(** * Properties *)

(** ** Strings *)

Lemma substring_all (s : string) :
  String.substring 0 (String.length s) s = s.
Proof. induction s as [|c s IH]; simpl; [reflexivity | now rewrite IH]. Qed.

Lemma append_empty_r (s : string) : s +:+ "" = s.
Proof. induction s as [|c s IH]; simpl; [reflexivity | now f_equal]. Qed.

Lemma append_assoc3 (a b c : string) : (a +:+ b) +:+ c = a +:+ (b +:+ c).
Proof. induction a as [|x a IH]; simpl; [reflexivity | now f_equal]. Qed.

Lemma lower_char_not_upper (c : ascii) :
  Ascii.eqb (JsString.lower_char c) "G" = false
  /\ Ascii.eqb (JsString.lower_char c) "P" = false.
Proof. destruct c as [[] [] [] [] [] [] [] []]; split; reflexivity. Qed.

(** A lower-cased method name is none of the three upper-case literals
    that [nameMethod] tests for. *)
Lemma nameMethod_toLowerCase (m : string) :
  nameMethod (JsString.toLowerCase m) = "delete".
Proof.
  unfold nameMethod. destruct m as [|c m]; [reflexivity|].
  simpl. destruct (lower_char_not_upper c) as [HG HP].
  now rewrite HG, HP.
Qed.

Lemma split_not_nil (sep : ascii) (s : string) : JsString.split sep s <> [].
Proof.
  destruct s as [|c s]; simpl; [discriminate|].
  destruct (Ascii.eqb c sep); [discriminate|].
  destruct (JsString.split sep s); discriminate.
Qed.

Lemma split_no_sep (sep : ascii) (s : string) :
  ~ In sep (list_ascii_of_string s) -> JsString.split sep s = [s].
Proof.
  induction s as [|c s IH]; simpl; intros Hn; [reflexivity|].
  destruct (Ascii.eqb_spec c sep) as [->|Hne].
  - exfalso. apply Hn. now left.
  - rewrite IH; [reflexivity|]. intros Hin. apply Hn. now right.
Qed.

(** ** [processErr] joins the messages *)

Lemma processErr_loop_acc (errs : list ValidationError) (acc : string) :
  fold_left (fun errors e => errors +:+ ". " +:+ message e) errs acc
  = acc +:+ fold_left (fun errors e => errors +:+ ". " +:+ message e) errs "".
Proof.
  revert acc. induction errs as [|e errs IH]; intros acc; cbn [fold_left].
  - now rewrite append_empty_r.
  - rewrite (IH (acc +:+ ". " +:+ message e)), (IH ("" +:+ ". " +:+ message e)).
    now rewrite append_assoc3.
Qed.

Lemma processErr_loop_concat (m : string) (errs : list ValidationError) :
  m +:+ fold_left (fun errors e => errors +:+ ". " +:+ message e) errs ""
  = String.concat ". " (m :: map message errs).
Proof.
  revert m. induction errs as [|e errs IH]; intros m.
  - simpl. apply append_empty_r.
  - cbn [fold_left map]. rewrite processErr_loop_acc.
    change (String.concat ". " (m :: message e :: map message errs))
      with (m +:+ ". " +:+ String.concat ". " (message e :: map message errs)).
    rewrite <- IH. simpl. reflexivity.
Qed.

Lemma processErr_join (errs : list ValidationError) :
  processErr errs = String.concat ". " (map message errs).
Proof.
  unfold processErr. destruct errs as [|e errs]; [reflexivity|].
  cbn [fold_left]. rewrite processErr_loop_acc.
  change (("" +:+ ". " +:+ message e)
          +:+ fold_left (fun errors e0 => errors +:+ ". " +:+ message e0) errs "")
    with (String "." (String " " (message e
          +:+ fold_left (fun errors e0 => errors +:+ ". " +:+ message e0) errs ""))).
  rewrite processErr_loop_concat.
  set (X := String.concat ". " (map message (e :: errs))).
  change (String.concat ". " (message e :: map message errs)) with X.
  unfold JsString.substring. cbn [String.length].
  replace (Nat.min 2 (S (S (String.length X)))) with 2%nat by lia.
  rewrite Nat.min_id.
  replace (Nat.min 2 (S (S (String.length X)))) with 2%nat by lia.
  replace (Nat.max 2 (S (S (String.length X))) - 2)%nat
    with (String.length X) by lia.
  cbn [String.substring]. apply substring_all.
Qed.

(** ** C9: the method-naming function *)

(** C9. [nameMethod] maps "GET" to "list", "POST" to "create", "PUT" to
    "update", and every other string, "DELETE" and "PATCH" among them, to
    "delete". *)
Theorem nameMethod_mapping :
  nameMethod "GET" = "list"
  /\ nameMethod "POST" = "create"
  /\ nameMethod "PUT" = "update"
  /\ nameMethod "DELETE" = "delete"
  /\ nameMethod "PATCH" = "delete"
  /\ (forall m : string,
        m <> "GET" -> m <> "POST" -> m <> "PUT" -> nameMethod m = "delete").
Proof.
  repeat split; try reflexivity.
  intros m HG HP HU. unfold nameMethod.
  destruct (String.eqb_spec m "GET"); [contradiction|].
  destruct (String.eqb_spec m "POST"); [contradiction|].
  destruct (String.eqb_spec m "PUT"); [contradiction|].
  reflexivity.
Qed.

Lemma nameMethod_mapping_witness :
  "OPTIONS" <> "GET" /\ "OPTIONS" <> "POST" /\ "OPTIONS" <> "PUT"
  /\ nameMethod "OPTIONS" = "delete".
Proof.
  assert (H1 : "OPTIONS" <> "GET") by discriminate.
  assert (H2 : "OPTIONS" <> "POST") by discriminate.
  assert (H3 : "OPTIONS" <> "PUT") by discriminate.
  refine (conj H1 (conj H2 (conj H3 _))).
  exact (proj2 (proj2 (proj2 (proj2 (proj2 nameMethod_mapping))))
           "OPTIONS" H1 H2 H3).
Defined.

(** ** The decision engine *)

Ltac exec :=
  unfold res_send, checkResponse, mbind, M_bind, mret, M_ret, lift, throw,
    get_statusCode, logger, oldSend_apply, oldSend, res_status, res_header;
  cbn [statusCode headers sent log fst snd].

Lemma logged_intro (l : level) (msg : string) (w w' : World)
    (pre : list (level * string)) :
  log w' = ((log w ++ pre) ++ [(l, msg)])%list ->
  Forall (fun e => fst e = Debug \/ fst e = Info) pre ->
  logged l msg w w'.
Proof. intros Hl Hp. exists pre. now rewrite Hl, <- app_assoc. Qed.

Ltac log_tail :=
  eapply logged_intro;
  [ cbn [log]; f_equal; rewrite <- ?app_assoc; reflexivity
  | repeat first [ apply Forall_nil_2
                 | apply Forall_cons_2
                 | apply Forall_app_2 ]; cbn [fst]; auto ].

Section Decision.
Context `{Platform}.
Variable config : Config.

Variables (oasDoc : OasDoc) (method requestedSpecPath : string).
Variables (arguments : Arguments) (w : World).
Local Abbreviation run :=
  (checkResponse config oasDoc method requestedSpecPath arguments w).
Local Abbreviation declared_here := (declared oasDoc method requestedSpecPath w).
Local Abbreviation undeclared_here :=
  (undeclared oasDoc method requestedSpecPath w).
Local Abbreviation validated_here :=
  (validated oasDoc method requestedSpecPath (arg_0 arguments) w).

Lemma first_param_set (v : option string) :
  arg_length arguments <> 0%nat -> first_param (set_arg_0 v arguments) = v.
Proof.
  unfold first_param, set_arg_0. cbn [arg_length arg_0].
  destruct (arg_length arguments); [contradiction | reflexivity].
Qed.

Lemma first_param_without_argument (v : option string) :
  arg_length arguments = 0%nat -> first_param (set_arg_0 v arguments) = None.
Proof.
  unfold first_param, set_arg_0. cbn [arg_length arg_0]. now intros ->.
Qed.

(** A status code that the operation does not declare.  The run
    completes and keeps the status code.  In strict mode an error is
    logged and [content[0]] is overwritten with the JSON text of
    [{message}] before [oldSend.apply]; otherwise a warning is logged and
    the arguments are applied as they came. *)
Lemma undeclared_outcome :
  undeclared oasDoc method requestedSpecPath w ->
  let msg := "Wrong response code: " +:+ JsString.of_Z (statusCode w) in
  let out := checkResponse config oasDoc method requestedSpecPath arguments w in
  fst out = Ok tt
  /\ statusCode (snd out) = statusCode w
  /\ (strict config = true ->
      logged Error msg w (snd out)
      /\ sent (snd out)
         = (sent w
            ++ [first_param
                  (set_arg_0 (JSON_stringify (VObj [("message", VStr msg)]))
                     arguments)])%list)
  /\ (strict config = false ->
      logged Warning msg w (snd out)
      /\ sent (snd out) = (sent w ++ [first_param arguments])%list).
Proof.
  intros (op & Hop & Hcode) msg out. subst out. exec. rewrite Hop, Hcode.
  destruct (strict config); cbn [fst snd statusCode sent];
    (split; [reflexivity|]); (split; [reflexivity|]);
    split; intros Hs; try discriminate Hs;
    (split; [log_tail | reflexivity]).
Qed.

(** When [res.send] was called with an argument, the replacement written
    in strict mode is what the original send receives. *)
Lemma undeclared_with_argument :
  undeclared oasDoc method requestedSpecPath w ->
  arg_length arguments <> 0%nat ->
  strict config = true ->
  sent (snd run)
  = (sent w ++ [JSON_stringify
                  (VObj [("message",
                          VStr ("Wrong response code: "
                                +:+ JsString.of_Z (statusCode w)))])])%list.
Proof.
  intros Hu Hlen Hs.
  destruct (undeclared_outcome Hu) as (_ & _ & Hstrict & _).
  destruct (Hstrict Hs) as (_ & ->). now rewrite first_param_set.
Qed.

(** C3. A declared status code with a JSON schema, a payload that parses
    and fails validation, strict mode on: an error is logged, the message
    is "Wrong data in the response. " followed by the validator's messages
    joined by ". ", the original send receives the JSON text of
    [{message, content}] with the parsed payload as [content], and the
    status code is 400.  The payload is the argument [res.send] was
    called with (a call without arguments has nothing to parse:
    [JSON.parse(undefined)] raises). *)
Theorem strict_schema_failure (data : value) (errs : list ValidationError) :
  arg_length arguments <> 0%nat ->
  validated oasDoc method requestedSpecPath (arg_0 arguments) w data (Some errs) ->
  strict config = true ->
  let msg := "Wrong data in the response. "
             +:+ String.concat ". " (map message errs) in
  let out := checkResponse config oasDoc method requestedSpecPath arguments w in
  fst out = Ok tt
  /\ statusCode (snd out) = 400%Z
  /\ logged Error msg w (snd out)
  /\ sent (snd out)
     = (sent w ++ [JSON_stringify
                     (VObj [("message", VStr msg); ("content", data)])])%list.
Proof.
  intros Hlen (rs & c & mt & (op & Hop & Hcode) & Hc & Hmt & Hparse & Hval)
    Hs msg out.
  subst out. exec. rewrite Hop, Hcode, Hc, Hmt. cbv beta iota zeta.
  rewrite Hparse. cbv beta iota zeta. rewrite Hval, Hs, processErr_join.
  cbn [String.append String.length Nat.ltb Nat.leb fst snd statusCode sent].
  rewrite first_param_set by exact Hlen.
  split; [reflexivity|]. split; [reflexivity|].
  split; [log_tail | reflexivity].
Qed.

(** *** The remaining branches *)

Ltac by_cases :=
  exec;
  destruct (operation_of oasDoc requestedSpecPath method) as [op|e] eqn:Hop;
  cbv beta iota zeta;
  [ destruct (responses op !! JsString.of_Z (statusCode w)) as [rs|] eqn:Hcode;
    [ destruct (content rs) as [c|] eqn:Hc;
      [ destruct (c !! "application/json") as [mt|] eqn:Hmt;
        cbv beta iota zeta;
        [ destruct (JSON_parse (show (arg_0 arguments))) as [d|] eqn:Hparse;
          cbv beta iota zeta;
          [ destruct (validator_validate d (schema mt)) as [errs|] eqn:Hval;
            cbn [String.append String.length Nat.ltb Nat.leb]
          | ]
        | ]
      | ]
    | ]
  | ];
  destruct (strict config) eqn:Hstrict;
  cbn [fst snd statusCode sent].

(** A declared status code without a [content] section: nothing to
    validate, the arguments are applied as they came. *)
Lemma no_content_passes (rs : ResponseSpec) :
  declared_here rs -> content rs = None ->
  fst run = Ok tt
  /\ statusCode (snd run) = statusCode w
  /\ sent (snd run) = (sent w ++ [first_param arguments])%list.
Proof.
  intros (op & Hop & Hcode) Hc. exec. rewrite Hop, Hcode, Hc.
  cbn [fst snd statusCode sent]. auto.
Qed.

(** A [content] section without an ['application/json'] entry: reading
    [.schema] of [undefined] raises, and nothing is sent. *)
Lemma no_json_entry_raises (rs : ResponseSpec) (c : gmap string MediaType) :
  declared_here rs -> content rs = Some c ->
  c !! "application/json" = None ->
  fst run = Throw TypeError
  /\ statusCode (snd run) = statusCode w
  /\ sent (snd run) = sent w.
Proof.
  intros (op & Hop & Hcode) Hc Hmt. exec. rewrite Hop, Hcode, Hc, Hmt.
  cbn [fst snd statusCode sent]. auto.
Qed.

(** A payload that [JSON.parse] rejects, where a schema is declared: the
    [SyntaxError] escapes, and nothing is sent. *)
Lemma unparsable_payload_raises (rs : ResponseSpec) (c : gmap string MediaType)
    (mt : MediaType) :
  declared_here rs -> content rs = Some c ->
  c !! "application/json" = Some mt ->
  JSON_parse (show (arg_0 arguments)) = None ->
  fst run = Throw SyntaxError
  /\ statusCode (snd run) = statusCode w
  /\ sent (snd run) = sent w.
Proof.
  intros (op & Hop & Hcode) Hc Hmt Hparse. exec.
  rewrite Hop, Hcode, Hc, Hmt. cbv beta iota zeta. rewrite Hparse.
  cbn [fst snd statusCode sent]. auto.
Qed.

(** On each of the five branches that end in [oldSend.apply], the run
    completes and the original send is called once. *)
Lemma sends_once_on_every_branch :
  undeclared_here
  \/ (exists rs, declared_here rs /\ content rs = None)
  \/ (exists data err, validated_here data err) ->
  fst run = Ok tt
  /\ exists payload, sent (snd run) = (sent w ++ [payload])%list.
Proof.
  intros [(op0 & Hop0 & Hcode0)
         | [(rs0 & (op0 & Hop0 & Hcode0) & Hc0)
           | (d0 & err0 & rs0 & c0 & mt0 & (op0 & Hop0 & Hcode0)
              & Hc0 & Hmt0 & Hparse0 & Hval0)]];
    by_cases; try congruence; eauto.
Qed.

(** The run either completes after one call of the original send, or
    raises before any call. *)
Lemma sends_at_most_once :
  (fst run = Ok tt /\ exists payload, sent (snd run) = (sent w ++ [payload])%list)
  \/ (exists e, fst run = Throw e /\ sent (snd run) = sent w).
Proof. by_cases; eauto. Qed.

Lemma original_payload_kept :
  strict config = false \/ (exists data, validated_here data None) ->
  sent (snd run)
  = (sent w ++ match fst run with
               | Ok _ => [first_param arguments]
               | Throw _ => []
               end)%list
  /\ ((exists data, validated_here data None) -> fst run = Ok tt).
Proof.
  intros Hyp. split.
  - by_cases; rewrite ?app_nil_r; try reflexivity.
    all: destruct Hyp as [Hoff | (d0 & rs0 & c0 & mt0 & (op0 & Hop0 & Hcode0)
                                  & Hc0 & Hmt0 & Hparse0 & Hval0)];
      congruence.
  - intros (d0 & rs0 & c0 & mt0 & (op0 & Hop0 & Hcode0)
            & Hc0 & Hmt0 & Hparse0 & Hval0).
    by_cases; congruence.
Qed.

(** C7. The status code is changed on one branch only: the current code
    is declared with a schema for ['application/json'], the validator
    reports errors and strict mode is on; it becomes 400 there.  On every
    other branch (undeclared code in either mode, no schema, validation
    success, failure in non-strict mode) it stays as the controller set
    it. *)
Theorem statusCode_changed_on_one_branch :
  let out := checkResponse config oasDoc method requestedSpecPath arguments w in
  let strict_failure :=
    strict config = true
    /\ exists data errs,
        validated oasDoc method requestedSpecPath (arg_0 arguments) w
          data (Some errs) in
  (strict_failure -> statusCode (snd out) = 400%Z)
  /\ (~ strict_failure -> statusCode (snd out) = statusCode w).
Proof.
  intros out strict_failure. subst out strict_failure. split.
  - intros (Hs & d0 & errs0 & rs0 & c0 & mt0 & (op0 & Hop0 & Hcode0)
               & Hc0 & Hmt0 & Hparse0 & Hval0).
    by_cases; congruence.
  - intros Hn. by_cases; try reflexivity.
    exfalso. apply Hn. split; [reflexivity|].
    exists d, errs, rs, c, mt. unfold declared. eauto 10.
Qed.

End Decision.

(** ** The installed [res.send] *)

(** What the original send receives from [oldSend.apply] when the router
    has not written to the arguments: the text of the first argument, or
    [undefined] when [res.send] was called without arguments. *)
Lemma first_param_stringify_first `{Platform} (args : list value) :
  first_param (stringify_first args)
  = match args with
    | [] => None
    | data :: _ => JSON_stringify data
    end.
Proof. destruct args; reflexivity. Qed.

(** C6. With strict mode off, and on validation success in either mode,
    what the original send receives is the text [JSON.stringify] made of
    the controller's payload, untouched: one call with exactly that text
    when the run completes, no call at all when it raises.  A successful
    validation always completes.  (The payload is the first argument of
    [res.send]; a call without arguments has none and passes none.) *)
Theorem original_payload_reaches_send `{Platform} (config : Config)
    (i : Interceptor) (args : list value) (w : World) :
  let payload := match args with
                 | [] => None
                 | data :: _ => JSON_stringify data
                 end in
  let valid :=
    exists d, validated (i_oasDoc i) (i_method i) (i_requestedSpecPath i)
                (JSON_stringify (hd VUndefined args)) w d None in
  strict config = false \/ valid ->
  sent (snd (res_send config i args w))
  = (sent w ++ match fst (res_send config i args w) with
               | Ok _ => [payload]
               | Throw _ => []
               end)%list
  /\ (valid -> fst (res_send config i args w) = Ok tt).
Proof.
  intros payload valid Hyp. subst payload valid.
  rewrite <- first_param_stringify_first.
  unfold res_send, mbind, M_bind, res_header.
  cbv beta iota zeta.
  exact (original_payload_kept config (i_oasDoc i) (i_method i)
           (i_requestedSpecPath i) (stringify_first args)
           {| statusCode := statusCode w;
              headers := <["Content-Type":="application/json;charset=utf-8"]>
                           (headers w);
              sent := sent w; log := log w |} Hyp).
Qed.

(** ** Controller and operation resolution *)

Section Resolution.
Context `{Platform}.
Variables (controllers : string) (req : Request).
Variables (oasDoc : OasDoc) (requestedSpecPath method : string) (w : World).
Local Abbreviation resolved :=
  (resolveControllerName controllers req oasDoc requestedSpecPath method w).

Ltac run_resolve :=
  unfold resolveControllerName, existsController, mbind, M_bind, mret, M_ret,
    lift, logger;
  cbv beta iota zeta.

Lemma override_wins (op : Operation) (c : string) :
  operation_of oasDoc requestedSpecPath method = Ok op ->
  x_router_controller op = Some c ->
  resolved = (Ok c, w).
Proof. intros Hop Hx. run_resolve. now rewrite Hop, Hx. Qed.

(** After a successful probe the name is generated again, this time from
    the path of the contract. *)
Lemma standard_name_from_contract_path (op : Operation) (probed : string)
    (m : jsval) :
  operation_of oasDoc requestedSpecPath method = Ok op ->
  x_router_controller op = None ->
  generateControllerName (req_path req) = Ok probed ->
  require (path_join controllers probed) = Some m ->
  fst resolved = generateControllerName requestedSpecPath.
Proof.
  intros Hop Hx Hp Hr. run_resolve. rewrite Hop, Hx, Hp. cbv beta iota.
  rewrite Hr. cbv beta iota. reflexivity.
Qed.

Lemma fallback_is_Default (op : Operation) (probed : string) :
  operation_of oasDoc requestedSpecPath method = Ok op ->
  x_router_controller op = None ->
  generateControllerName (req_path req) = Ok probed ->
  require (path_join controllers probed) = None ->
  fst resolved = Ok "Default".
Proof.
  intros Hop Hx Hp Hr. run_resolve. rewrite Hop, Hx, Hp. cbv beta iota.
  rewrite Hr. reflexivity.
Qed.

End Resolution.

(** The router hands a lower-cased method to [generateOpId]; a generated
    identifier therefore always starts with "delete". *)
Lemma generated_opID_is_delete (oasDoc : OasDoc) (requestedSpecPath m : string)
    (op : Operation) :
  operation_of oasDoc requestedSpecPath (JsString.toLowerCase m) = Ok op ->
  operationId op = None ->
  generateOpId oasDoc requestedSpecPath (JsString.toLowerCase m)
  = (r ← resourceName requestedSpecPath; Ok ("delete" +:+ r)).
Proof.
  intros Hop Hid. unfold generateOpId. rewrite Hop. cbn [mbind result_bind].
  rewrite Hid, nameMethod_toLowerCase. reflexivity.
Qed.

(** What a completed run of the middleware has resolved. *)
Lemma OASRouter_inv `{Platform} (controllers : string) (req : Request)
    (locals : Locals) (w : World) (d : Dispatch) :
  fst (OASRouter controllers req locals w) = Ok d ->
  fst (resolveControllerName controllers req (l_oasDoc locals)
         (l_requestedSpecPath locals) (JsString.toLowerCase (req_method req)) w)
  = Ok (d_controllerName d)
  /\ generateOpId (l_oasDoc locals) (l_requestedSpecPath locals)
       (JsString.toLowerCase (req_method req)) = Ok (d_opID d)
  /\ require (path_join controllers (d_controllerName d))
     = Some (d_controller d)
  /\ executeFunctionByName (d_opID d) (d_controller d) (ArgReq req)
       (ArgRes (interceptor_of req locals)) ArgNext = Ok (d_call d).
Proof.
  unfold OASRouter, mbind at 1, M_bind at 1.
  destruct (resolveControllerName _ _ _ _ _ w) as [[cn|e] w1];
    [|discriminate].
  unfold mbind, M_bind, lift, mret, M_ret, throw, logger. cbv beta iota zeta.
  destruct (generateOpId _ _ _) as [id|e]; [|discriminate].
  destruct (require (path_join controllers cn)) as [m|] eqn:Hr;
    [|discriminate].
  fold (interceptor_of req locals).
  destruct (executeFunctionByName id m _ _ _) as [call|e] eqn:Hcall;
    [|discriminate].
  cbn [fst]. intros [= <-]. cbn. auto.
Qed.

Lemma OASRouter_generated_opID `{Platform} (controllers : string)
    (req : Request) (locals : Locals) (w : World) (d : Dispatch)
    (op : Operation) :
  fst (OASRouter controllers req locals w) = Ok d ->
  operation_of (l_oasDoc locals) (l_requestedSpecPath locals)
    (JsString.toLowerCase (req_method req)) = Ok op ->
  operationId op = None ->
  exists r, resourceName (l_requestedSpecPath locals) = Ok r
            /\ d_opID d = "delete" +:+ r.
Proof.
  intros Hd Hop Hid. apply OASRouter_inv in Hd as (_ & Hgen & _).
  rewrite (generated_opID_is_delete _ _ _ op Hop Hid) in Hgen.
  destruct (resourceName (l_requestedSpecPath locals)) as [r|e];
    [|discriminate].
  exists r. split; [reflexivity|]. now injection Hgen as <-.
Qed.

(** ** Handler invocation *)

Lemma walk_follow (namespaces : list string) (fuel i : nat) (context : jsval) :
  (i + fuel)%nat = length namespaces ->
  walk namespaces i fuel context = follow (drop i namespaces) context.
Proof.
  revert i context. induction fuel as [|fuel IH]; intros i context Hlen.
  - rewrite drop_ge by lia. reflexivity.
  - destruct (lookup_lt_is_Some_2 namespaces i ltac:(lia)) as [ns Hns].
    rewrite (drop_S _ _ _ Hns). cbn [walk follow]. rewrite Hns.
    change (default "undefined" (Some ns)) with ns. destruct (get_prop context ns) as [context'|e];
      cbn [mbind result_bind]; [|reflexivity].
    apply IH. lia.
Qed.

Lemma executeFunctionByName_split (functionName : string) (context : jsval)
    (req res next : Arg) (before : list string) (name : string) :
  JsString.split "." functionName = (before ++ [name])%list ->
  executeFunctionByName functionName context req res next
  = (follow before context ≫= fun obj => call_handler obj name req res next).
Proof.
  intros Hs. unfold executeFunctionByName. rewrite Hs.
  rewrite last_snoc, removelast_last.
  change (default "undefined" (Some name)) with name.
  rewrite walk_follow by reflexivity. rewrite drop_0.
  destruct (follow before context); reflexivity.
Qed.

(** C10. The identifier is split on ".", every segment before the last is
    followed as a nested property of the controller, and the function
    named by the last segment is called on the object reached, with the
    request, the response and the continuation as its three arguments.
    An identifier without a dot calls [controller[opID](req, res, next)].
    The middleware invokes the handler this way, with the identifier and
    the controller it resolved. *)
Theorem handler_invocation (functionName : string) (context : jsval)
    (req res next : Arg) :
  (exists before name,
      JsString.split "." functionName = (before ++ [name])%list
      /\ executeFunctionByName functionName context req res next
         = (follow before context
            ≫= fun obj => call_handler obj name req res next))
  /\ (~ In "."%char (list_ascii_of_string functionName) ->
      executeFunctionByName functionName context req res next
      = call_handler context functionName req res next)
  /\ (forall (P : Platform) (controllers : string) (r : Request)
             (locals : Locals) (w : World) (d : Dispatch),
         fst (OASRouter controllers r locals w) = Ok d ->
         executeFunctionByName (d_opID d) (d_controller d) (ArgReq r)
           (ArgRes (interceptor_of r locals)) ArgNext = Ok (d_call d)).
Proof.
  split; [|split].
  - destruct (JsString.split "." functionName) as [|s l] eqn:Hs using rev_ind.
    + now apply split_not_nil in Hs.
    + exists l, s. split; [reflexivity|].
      now apply executeFunctionByName_split.
  - intros Hdot.
    rewrite (executeFunctionByName_split functionName context req res next
               [] functionName); [reflexivity|].
    now apply split_no_sep.
  - intros P controllers r locals w d Hd.
    now apply OASRouter_inv in Hd.
Qed.

(** * The router on a concrete contract *)

(** Sample runs of the naming policy and of handler invocation. *)

Example split_dotted : JsString.split "." "a.b.c" = ["a"; "b"; "c"].
Proof. reflexivity. Qed.

Example split_keeps_empty_pieces : JsString.split "/" "/" = [""; ""].
Proof. reflexivity. Qed.

Example resourceName_widgets : resourceName "/widgets/{id}" = Ok "Widgets".
Proof. reflexivity. Qed.

Example resourceName_without_separator : resourceName "widgets" = Throw TypeError.
Proof. reflexivity. Qed.

Example processErr_two_messages :
  processErr [{| code := "A"; message := "first" |};
              {| code := "B"; message := "second" |}] = "first. second".
Proof. reflexivity. Qed.

Example generateOpId_patch :
  generateOpId (Demo.doc "/widgets/{id}" "patch" (Demo.op None None []))
    "/widgets/{id}" "patch" = Ok "deleteWidgets".
Proof. vm_compute. reflexivity. Qed.

Example generateOpId_declared :
  generateOpId (Demo.doc "/widgets" "get" (Demo.op (Some "findAll") None []))
    "/widgets" "get" = Ok "findAll".
Proof. vm_compute. reflexivity. Qed.

Example nested_handler :
  executeFunctionByName "admin.purge"
    (JObject [("admin", JObject [("purge", JFunction "purge")])])
    ArgNext ArgNext ArgNext
  = Ok {| callee := "purge";
          this := JObject [("purge", JFunction "purge")];
          args := [ArgNext; ArgNext; ArgNext] |}.
Proof. reflexivity. Qed.

Example missing_handler :
  executeFunctionByName "purge" (JObject []) ArgNext ArgNext ArgNext
  = Throw TypeError.
Proof. reflexivity. Qed.

Lemma widgets_404_undeclared :
  undeclared Demo.widgets_doc "get" "/widgets" (Demo.world 404).
Proof. exists Demo.widgets_op. split; vm_compute; reflexivity. Defined.

Lemma widgets_202_text_only :
  declared Demo.widgets_doc "get" "/widgets" (Demo.world 202) Demo.text_body.
Proof. exists Demo.widgets_op. split; vm_compute; reflexivity. Defined.

Lemma widgets_200_bad_id :
  validated (H:=Demo.server) Demo.widgets_doc "get" "/widgets"
    (Demo.stringify Demo.bad_id) (Demo.world 200)
    Demo.bad_id (Some Demo.bad_id_errors).
Proof.
  exists (Demo.json_body Demo.id_schema),
    {[ "application/json" := {| schema := Demo.id_schema |} ]},
    {| schema := Demo.id_schema |}.
  split; [exists Demo.widgets_op; split; vm_compute; reflexivity|].
  repeat split; vm_compute; reflexivity.
Defined.

Lemma strict_schema_failure_witness :
  arg_length (Shop.one_argument (Demo.stringify Demo.bad_id)) <> 0%nat
  /\ validated (H:=Demo.server) Demo.widgets_doc "get" "/widgets"
       (Demo.stringify Demo.bad_id) (Demo.world 200)
       Demo.bad_id (Some Demo.bad_id_errors)
  /\ strict Demo.strict_on = true
  /\ statusCode (snd (checkResponse (H:=Demo.server) Demo.strict_on
                        Demo.widgets_doc "get" "/widgets"
                        (Shop.one_argument (Demo.stringify Demo.bad_id))
                        (Demo.world 200)))
     = 400%Z.
Proof.
  assert (Hlen : arg_length (Shop.one_argument (Demo.stringify Demo.bad_id))
                 <> 0%nat) by (cbn; lia).
  split; [exact Hlen|].
  split; [exact widgets_200_bad_id|]. split; [reflexivity|].
  exact (proj1 (proj2
           (strict_schema_failure (H:=Demo.server) Demo.strict_on
              Demo.widgets_doc "get" "/widgets"
              (Shop.one_argument (Demo.stringify Demo.bad_id))
              (Demo.world 200) Demo.bad_id Demo.bad_id_errors
              Hlen widgets_200_bad_id eq_refl))).
Defined.

Lemma original_payload_reaches_send_witness :
  strict Demo.strict_off = false
  /\ sent (snd (res_send (H:=Demo.server) Demo.strict_off Demo.widgets
                  [Demo.bad_id] (Demo.world 200)))
     = [Demo.stringify Demo.bad_id].
Proof.
  split; [reflexivity|].
  rewrite (proj1 (original_payload_reaches_send (H:=Demo.server)
                    Demo.strict_off Demo.widgets [Demo.bad_id] (Demo.world 200)
                    (or_introl eq_refl))).
  vm_compute. reflexivity.
Defined.

Lemma statusCode_changed_on_one_branch_witness :
  strict Demo.strict_on = true
  /\ (exists data errs,
         validated (H:=Demo.server) Demo.widgets_doc "get" "/widgets"
           (Demo.stringify Demo.bad_id) (Demo.world 200) data (Some errs))
  /\ statusCode (snd (checkResponse (H:=Demo.server) Demo.strict_on
                        Demo.widgets_doc "get" "/widgets"
                        (Shop.one_argument (Demo.stringify Demo.bad_id))
                        (Demo.world 200)))
     = 400%Z.
Proof.
  assert (Hex : exists data errs,
             validated (H:=Demo.server) Demo.widgets_doc "get" "/widgets"
               (Demo.stringify Demo.bad_id) (Demo.world 200) data (Some errs))
    by (exists Demo.bad_id, Demo.bad_id_errors; exact widgets_200_bad_id).
  split; [reflexivity|]. split; [exact Hex|].
  exact (proj1 (statusCode_changed_on_one_branch (H:=Demo.server)
                  Demo.strict_on Demo.widgets_doc "get" "/widgets"
                  (Shop.one_argument (Demo.stringify Demo.bad_id))
                  (Demo.world 200))
           (conj eq_refl Hex)).
Defined.

Lemma handler_invocation_witness :
  ~ In "."%char (list_ascii_of_string "deleteWidgets")
  /\ executeFunctionByName "deleteWidgets" Demo.widgets_controller
       (ArgReq Demo.get_widgets) (ArgRes Demo.widgets) ArgNext
     = call_handler Demo.widgets_controller "deleteWidgets"
         (ArgReq Demo.get_widgets) (ArgRes Demo.widgets) ArgNext.
Proof.
  assert (Hdot : ~ In "."%char (list_ascii_of_string "deleteWidgets"))
    by (cbn; intuition discriminate).
  split; [exact Hdot|].
  exact (proj1 (proj2 (handler_invocation "deleteWidgets"
                         Demo.widgets_controller (ArgReq Demo.get_widgets)
                         (ArgRes Demo.widgets) ArgNext)) Hdot).
Defined.

(** ** Where the code departs from its description *)

(** C1. A declared response whose [content] has no ['application/json']
    entry: the installed [res.send] raises a [TypeError] before any of its
    five calls of the original send, in either mode and for any payload;
    the original send is invoked zero times, not once. *)
Theorem send_skipped_without_json_entry (P : Platform) (config : Config)
    (args : list value) :
  fst (res_send config Demo.widgets args (Demo.world 202)) = Throw TypeError
  /\ sent (snd (res_send config Demo.widgets args (Demo.world 202))) = [].
Proof.
  unfold res_send, mbind, M_bind, res_header. cbv beta iota zeta.
  set (w1 := {| statusCode := statusCode (Demo.world 202);
                headers := _; sent := sent (Demo.world 202);
                log := log (Demo.world 202) |}).
  assert (Hd : declared Demo.widgets_doc "get" "/widgets" w1 Demo.text_body)
    by (exists Demo.widgets_op; split; vm_compute; reflexivity).
  destruct (no_json_entry_raises config Demo.widgets_doc "get" "/widgets"
              (stringify_first args) w1 Demo.text_body
              {[ "text/plain" :=
                   {| schema := VObj [("type", VStr "string")] |} ]}
              Hd eq_refl ltac:(vm_compute; reflexivity))
    as (Hr & _ & Hs).
  split; assumption.
Qed.

(** C8. Status 202 is declared with a [text/plain] body only, so there is
    no schema for ['application/json']; the decision engine does not pass
    the payload through but fails with a [TypeError], and the original
    send is never invoked. *)
Theorem missing_json_schema_fails (P : Platform) (config : Config)
    (arguments : Arguments) :
  declared Demo.widgets_doc "get" "/widgets" (Demo.world 202) Demo.text_body
  /\ (exists c, content Demo.text_body = Some c
                /\ c !! "application/json" = None)
  /\ fst (checkResponse config Demo.widgets_doc "get" "/widgets" arguments
            (Demo.world 202)) = Throw TypeError
  /\ sent (snd (checkResponse config Demo.widgets_doc "get" "/widgets" arguments
                  (Demo.world 202))) = [].
Proof.
  split; [exact widgets_202_text_only|].
  split; [eexists; split; [reflexivity | vm_compute; reflexivity]|].
  destruct (no_json_entry_raises config Demo.widgets_doc "get" "/widgets"
              arguments (Demo.world 202) Demo.text_body
              {[ "text/plain" :=
                   {| schema := VObj [("type", VStr "string")] |} ]}
              widgets_202_text_only eq_refl ltac:(vm_compute; reflexivity))
    as (Hr & _ & Hs).
  split; assumption.
Qed.

(** C2. Strict mode, status 404 undeclared, and [res.send()] called
    without arguments.  The error is logged and the JSON text of
    [{message: "Wrong response code: 404"}] is written to slot 0 of the
    arguments, but their length is zero, so [oldSend.apply] hands nothing
    over: the original send receives [undefined], not the replacement. *)
Theorem strict_replacement_lost_without_argument (P : Platform) :
  let out := res_send Demo.strict_on Demo.widgets [] (Demo.world 404) in
  undeclared Demo.widgets_doc "get" "/widgets" (Demo.world 404)
  /\ strict Demo.strict_on = true
  /\ fst out = Ok tt
  /\ logged Error "Wrong response code: 404" (Demo.world 404) (snd out)
  /\ sent (snd out) = [None]
  /\ Demo.stringify (VObj [("message", VStr "Wrong response code: 404")])
     <> None.
Proof.
  intros out. subst out.
  split; [exact widgets_404_undeclared|]. split; [reflexivity|].
  unfold res_send, mbind, M_bind, res_header. cbv beta iota zeta.
  set (w1 := {| statusCode := statusCode (Demo.world 404);
                headers := _; sent := sent (Demo.world 404);
                log := log (Demo.world 404) |}).
  assert (Hu : undeclared Demo.widgets_doc "get" "/widgets" w1)
    by (exists Demo.widgets_op; split; vm_compute; reflexivity).
  destruct (undeclared_outcome Demo.strict_on Demo.widgets_doc "get"
              "/widgets" (stringify_first []) w1 Hu)
    as (Hr & _ & Hstrict & _).
  destruct (Hstrict eq_refl) as (Hlog & Hsent).
  split; [exact Hr|]. split; [exact Hlog|].
  split; [exact Hsent | discriminate].
Qed.

(** C4. The contract path is [/{tenant}/items], the request path is
    [/acme/items] and [AcmeController] exists.  The probe is made for the
    name generated from the request path and succeeds, but the name then
    used is generated from the contract path; that module does not exist
    and the process exits. *)
Theorem probed_name_is_not_the_name_used :
  generateControllerName (req_path Demo.get_acme_items) = Ok "AcmeController"
  /\ @require Demo.server (@path_join Demo.server "controllers" "AcmeController")
     = Some Demo.acme_controller
  /\ fst (resolveControllerName (H:=Demo.server) "controllers"
            Demo.get_acme_items Demo.tenant_doc "/{tenant}/items" "get"
            (Demo.world 200))
     = Ok "{tenant}Controller"
  /\ fst (OASRouter (H:=Demo.server) "controllers" Demo.get_acme_items
            Demo.tenant_locals (Demo.world 200))
     = Throw ProcessExit.
Proof. repeat split; vm_compute; reflexivity. Qed.

(** C5. A GET request for [/widgets], whose operation has no
    [operationId]: the method reaches [nameMethod] in lower case, so the
    identifier resolved is "deleteWidgets", not "listWidgets", and the
    handler called is the one for deletion. *)
Theorem GET_resolves_to_delete :
  req_method Demo.get_widgets = "GET"
  /\ operationId Demo.widgets_op = None
  /\ resourceName "/widgets" = Ok "Widgets"
  /\ exists d,
      fst (OASRouter (H:=Demo.server) "controllers" Demo.get_widgets
             Demo.widgets_locals (Demo.world 200)) = Ok d
      /\ d_opID d = "deleteWidgets"
      /\ d_opID d <> "list" +:+ "Widgets"
      /\ callee (d_call d) = "deleteWidgets".
Proof.
  repeat split; try reflexivity.
  eexists. split; [vm_compute; reflexivity|].
  repeat split; try reflexivity. discriminate.
Qed.

(** ** Runs of the installed [res.send] on the widgets contract *)

(** Status 201 is declared without content: the payload passes. *)
Example run_no_content :
  let out := res_send (H:=Demo.server) Demo.strict_on Demo.widgets
               [Demo.good_id] (Demo.world 201) in
  fst out = Ok tt
  /\ statusCode (snd out) = 201%Z
  /\ sent (snd out) = [Demo.stringify Demo.good_id].
Proof. vm_compute. repeat split; reflexivity. Qed.

(** Status 200 with [{id: "x"}] against a schema that wants a number. *)
Example run_strict_rejection :
  let out := res_send (H:=Demo.server) Demo.strict_on Demo.widgets
               [Demo.bad_id] (Demo.world 200) in
  fst out = Ok tt
  /\ statusCode (snd out) = 400%Z
  /\ sent (snd out)
     = [Demo.stringify
          (VObj [("message",
                  VStr ("Wrong data in the response. "
                        +:+ "Expected type number but found type string"));
                 ("content", Demo.bad_id)])].
Proof. vm_compute. repeat split; reflexivity. Qed.

Example run_warning_only :
  let out := res_send (H:=Demo.server) Demo.strict_off Demo.widgets
               [Demo.bad_id] (Demo.world 200) in
  fst out = Ok tt
  /\ statusCode (snd out) = 200%Z
  /\ sent (snd out) = [Demo.stringify Demo.bad_id]
  /\ last (log (snd out))
     = Some (Warning, "Wrong data in the response. "
                      +:+ "Expected type number but found type string").
Proof. vm_compute. repeat split; reflexivity. Qed.

(** Status 404 is not declared. *)
Example run_unknown_code_strict :
  let out := res_send (H:=Demo.server) Demo.strict_on Demo.widgets
               [Demo.good_id] (Demo.world 404) in
  fst out = Ok tt
  /\ statusCode (snd out) = 404%Z
  /\ sent (snd out)
     = [Demo.stringify (VObj [("message", VStr "Wrong response code: 404")])].
Proof. vm_compute. repeat split; reflexivity. Qed.

(** [res.send()] without a payload where a schema is declared:
    [JSON.parse(undefined)] raises and nothing is sent. *)
Example run_without_payload :
  let out := res_send (H:=Demo.server) Demo.strict_off Demo.widgets
               [] (Demo.world 200) in
  fst out = Throw SyntaxError /\ sent (snd out) = [].
Proof. vm_compute. split; reflexivity. Qed.

(** * Further properties of the router *)

(** ** Path splitting and resource names *)

Lemma split_app_sep (sep : ascii) (a b : string) :
  ~ In sep (list_ascii_of_string a) ->
  JsString.split sep (a +:+ String sep b) = a :: JsString.split sep b.
Proof.
  induction a as [|c a IH]; intros Hn.
  - cbn. now rewrite Ascii.eqb_refl.
  - cbn [String.append JsString.split].
    destruct (Ascii.eqb_spec c sep) as [->|Hne].
    + exfalso. apply Hn. now left.
    + rewrite IH; [reflexivity|]. intros Hin. apply Hn. now right.
Qed.

Lemma split_two_pieces (sep : ascii) (s : string) :
  In sep (list_ascii_of_string s) ->
  exists a b l, JsString.split sep s = a :: b :: l.
Proof.
  induction s as [|c s IH]; cbn [list_ascii_of_string In JsString.split];
    [intros []|].
  intros Hin. destruct (Ascii.eqb_spec c sep) as [->|Hne].
  - destruct (JsString.split sep s) as [|b l] eqn:Hs.
    + now apply split_not_nil in Hs.
    + now exists "", b, l.
  - destruct Hin as [Heq|Hin]; [contradiction|].
    destruct (IH Hin) as (a & b & l & ->). now exists (String c a), b, l.
Qed.

Lemma split_pieces_no_sep (sep : ascii) (s piece : string) :
  In piece (JsString.split sep s) -> ~ In sep (list_ascii_of_string piece).
Proof.
  revert piece. induction s as [|c s IH]; intros piece.
  - cbn. intros [<-|[]]. cbn. tauto.
  - cbn [JsString.split]. destruct (Ascii.eqb_spec c sep) as [->|Hne].
    + intros [<-|Hin]; [cbn; tauto | now apply IH].
    + destruct (JsString.split sep s) as [|h t] eqn:Hs.
      * now apply split_not_nil in Hs.
      * intros [<-|Hin].
        -- cbn. intros [Heq|Hin]; [contradiction|].
           revert Hin. apply IH. now left.
        -- apply IH. now right.
Qed.

Lemma capitalize_eq (resource : string) :
  JsString.toUpperCase (JsString.charAt 0 resource) +:+ JsString.slice 1 resource
  = match resource with
    | EmptyString => EmptyString
    | String c s => String (JsString.upper_char c) s
    end.
Proof.
  destruct resource as [|c s]; [reflexivity|].
  unfold JsString.charAt, JsString.slice. cbn [String.get String.length].
  cbn [JsString.toUpperCase String.append]. f_equal.
  replace (S (String.length s) - 1)%nat with (String.length s) by lia.
  cbn [String.substring]. apply substring_all.
Qed.

Lemma upper_char_slash (c : ascii) :
  JsString.upper_char c = "/"%char -> c = "/"%char.
Proof.
  destruct c as [[] [] [] [] [] [] [] []]; vm_compute; intros Heq;
    first [reflexivity | discriminate Heq].
Qed.

(** X1. [processErr] returns the messages of the reported errors joined
    by ". ": nothing before the first, nothing after the last, and the
    empty string for an empty report. *)
Theorem processErr_joins_messages (err : list ValidationError) :
  processErr err = String.concat ". " (map message err)
  /\ processErr [] = "".
Proof. split; [apply processErr_join | reflexivity]. Qed.

(** X2. [resourceName] raises exactly when the path contains no "/";
    the only exception it can raise is a [TypeError]. *)
Theorem resourceName_raises_iff_no_separator (requestedSpecPath : string) :
  (resourceName requestedSpecPath = Throw TypeError
   <-> ~ In "/"%char (list_ascii_of_string requestedSpecPath))
  /\ (forall e, resourceName requestedSpecPath = Throw e -> e = TypeError).
Proof.
  unfold resourceName. split; [split|].
  - intros Hthrow Hin.
    destruct (split_two_pieces "/" requestedSpecPath Hin) as (a & b & l & Hs).
    rewrite Hs in Hthrow. discriminate Hthrow.
  - intros Hn. now rewrite (split_no_sep _ _ Hn).
  - intros e. destruct (JsString.split "/" requestedSpecPath !! 1%nat);
      [discriminate | now intros [= <-]].
Qed.

Lemma resourceName_raises_iff_no_separator_witness :
  ~ In "/"%char (list_ascii_of_string "widgets")
  /\ resourceName "widgets" = Throw TypeError.
Proof.
  assert (Hn : ~ In "/"%char (list_ascii_of_string "widgets"))
    by (cbn; intuition discriminate).
  split; [exact Hn|].
  exact (proj2 (proj1 (resourceName_raises_iff_no_separator "widgets")) Hn).
Defined.

(** X3. Only the first segment after the leading "/" counts.  For a
    segment that starts with an ASCII character, the result is the
    segment with that character in upper case (a letter a-z becomes A-Z,
    any other ASCII character stays) and the rest unchanged, whatever
    follows the segment; an empty segment gives the empty string. *)
Theorem resourceName_first_segment (seg rest : string) :
  ~ In "/"%char (list_ascii_of_string seg) ->
  match seg with
  | EmptyString => True
  | String c _ => (nat_of_ascii c < 128)%nat
  end ->
  let capitalized := match seg with
                     | EmptyString => EmptyString
                     | String c s => String (JsString.upper_char c) s
                     end in
  resourceName ("/" +:+ seg) = Ok capitalized
  /\ resourceName ("/" +:+ seg +:+ "/" +:+ rest) = Ok capitalized.
Proof.
  intros Hn _ capitalized. unfold resourceName. split.
  - change ("/" +:+ seg) with (String "/" seg).
    cbn [JsString.split]. rewrite Ascii.eqb_refl, (split_no_sep _ _ Hn).
    cbn [lookup list_lookup]. now rewrite capitalize_eq.
  - change ("/" +:+ seg +:+ "/" +:+ rest)
      with (String "/" (seg +:+ String "/" rest)).
    cbn [JsString.split]. rewrite Ascii.eqb_refl, (split_app_sep _ _ _ Hn).
    cbn [lookup list_lookup]. now rewrite capitalize_eq.
Qed.

Lemma resourceName_first_segment_witness :
  ~ In "/"%char (list_ascii_of_string "widgets")
  /\ (nat_of_ascii "w" < 128)%nat
  /\ resourceName ("/" +:+ "widgets" +:+ "/" +:+ "{id}/parts") = Ok "Widgets".
Proof.
  assert (Hn : ~ In "/"%char (list_ascii_of_string "widgets"))
    by (cbn; intuition discriminate).
  assert (Hc : (nat_of_ascii "w" < 128)%nat) by (vm_compute; lia).
  split; [exact Hn|]. split; [exact Hc|].
  exact (proj2 (resourceName_first_segment "widgets" "{id}/parts" Hn Hc)).
Defined.

(** X4. A generated controller name is the resource name followed by
    "Controller", and neither of the two contains a "/". *)
Theorem generated_names_have_no_separator (url name : string) :
  generateControllerName url = Ok name ->
  ~ In "/"%char (list_ascii_of_string name)
  /\ exists r, resourceName url = Ok r
               /\ name = r +:+ "Controller"
               /\ ~ In "/"%char (list_ascii_of_string r).
Proof.
  unfold generateControllerName, resourceName.
  destruct (JsString.split "/" url !! 1%nat) as [resource|] eqn:Hl;
    [|discriminate].
  cbn [mbind result_bind]. intros [= <-].
  assert (Hres : ~ In "/"%char (list_ascii_of_string resource)).
  { apply (split_pieces_no_sep "/" url). apply list_elem_of_In.
    eapply list_elem_of_lookup_2. exact Hl. }
  assert (Hr : ~ In "/"%char
                 (list_ascii_of_string
                    (JsString.toUpperCase (JsString.charAt 0 resource)
                     +:+ JsString.slice 1 resource))).
  { rewrite capitalize_eq. destruct resource as [|c s]; [cbn; tauto|].
    cbn [list_ascii_of_string In]. intros [Heq|Hin].
    - apply Hres. left. now apply upper_char_slash.
    - apply Hres. now right. }
  split.
  - revert Hr. generalize (JsString.toUpperCase (JsString.charAt 0 resource)
                           +:+ JsString.slice 1 resource).
    intros r Hr. induction r as [|c r IH].
    + cbn. intuition discriminate.
    + cbn [String.append list_ascii_of_string In]. intros [Heq|Hin].
      * apply Hr. now left.
      * apply IH; [|exact Hin]. intros Hin'. apply Hr. now right.
  - eexists. split; [reflexivity|]. split; [reflexivity | exact Hr].
Qed.

Lemma generated_names_have_no_separator_witness :
  generateControllerName "/widgets/{id}" = Ok "WidgetsController"
  /\ ~ In "/"%char (list_ascii_of_string "WidgetsController").
Proof.
  assert (Hg : generateControllerName "/widgets/{id}" = Ok "WidgetsController")
    by reflexivity.
  split; [exact Hg|].
  exact (proj1 (generated_names_have_no_separator "/widgets/{id}"
                  "WidgetsController" Hg)).
Defined.

(** ** The existence probe and controller resolution *)

Ltac run_router :=
  unfold OASRouter, resolveControllerName, existsController, mbind, M_bind,
    mret, M_ret, lift, throw, logger;
  cbv beta iota zeta.

(** X5. The existence probe never raises and never touches the response:
    it answers [true] when the module can be loaded and [false] when it
    cannot, and leaves status code, headers and written payloads alone. *)
Theorem existsController_only_probes `{Platform}
    (locationOfControllers controllerName : string) (w : World) :
  let out := existsController locationOfControllers controllerName w in
  (forall m, require (path_join locationOfControllers controllerName) = Some m ->
             fst out = Ok true)
  /\ (require (path_join locationOfControllers controllerName) = None ->
      fst out = Ok false
      /\ logged Info ("The controller " +:+ controllerName
                      +:+ " doesn't exist at " +:+ locationOfControllers)
           w (snd out))
  /\ (exists found, fst out = Ok found)
  /\ statusCode (snd out) = statusCode w
  /\ headers (snd out) = headers w
  /\ sent (snd out) = sent w.
Proof.
  intros out. subst out. run_router.
  destruct (require (path_join locationOfControllers controllerName)) as [m|];
    cbn [fst snd statusCode headers sent].
  - repeat split; try reflexivity; try discriminate. now exists true.
  - repeat split; try reflexivity; try discriminate.
    + log_tail.
    + now exists false.
Qed.

Lemma existsController_only_probes_witness :
  @require Demo.server (@path_join Demo.server "controllers" "AcmeController")
  = Some Demo.acme_controller
  /\ fst (existsController (H:=Demo.server) "controllers" "AcmeController"
            (Demo.world 200)) = Ok true.
Proof.
  assert (Hr : @require Demo.server
                 (@path_join Demo.server "controllers" "AcmeController")
               = Some Demo.acme_controller) by (vm_compute; reflexivity).
  split; [exact Hr|].
  exact (proj1 (existsController_only_probes (H:=Demo.server) "controllers"
                  "AcmeController" (Demo.world 200))
           Demo.acme_controller Hr).
Defined.

(** X6. An operation with [x-router-controller] is dispatched to that
    module without any probe: whatever the request path, nothing is
    logged and the state is unchanged when the handler is reached. *)
Theorem override_dispatches_without_probe `{Platform} (controllers : string)
    (req : Request) (locals : Locals) (w : World) (op : Operation)
    (c opID : string) (m : jsval) :
  operation_of (l_oasDoc locals) (l_requestedSpecPath locals)
    (JsString.toLowerCase (req_method req)) = Ok op ->
  x_router_controller op = Some c ->
  generateOpId (l_oasDoc locals) (l_requestedSpecPath locals)
    (JsString.toLowerCase (req_method req)) = Ok opID ->
  require (path_join controllers c) = Some m ->
  OASRouter controllers req locals w
  = (call ← executeFunctionByName opID m (ArgReq req)
              (ArgRes (interceptor_of req locals)) ArgNext;
     Ok {| d_controllerName := c; d_opID := opID;
           d_controller := m; d_call := call |},
     w).
Proof.
  intros Hop Hx Hid Hr. run_router. rewrite Hop, Hx. cbv beta iota.
  rewrite Hid. cbv beta iota. rewrite Hr. cbv beta iota.
  fold (interceptor_of req locals).
  destruct (executeFunctionByName opID m _ _ _); reflexivity.
Qed.

(** X7. Without an override, when the module named after the request
    path cannot be loaded, the controller name is "Default" and the
    failed probe is logged at informational level. *)
Theorem failed_probe_falls_back `{Platform} (controllers : string)
    (req : Request) (oasDoc : OasDoc) (requestedSpecPath method : string)
    (w : World) (op : Operation) (probed : string) :
  operation_of oasDoc requestedSpecPath method = Ok op ->
  x_router_controller op = None ->
  generateControllerName (req_path req) = Ok probed ->
  require (path_join controllers probed) = None ->
  let out := resolveControllerName controllers req oasDoc requestedSpecPath
               method w in
  fst out = Ok "Default"
  /\ logged Info ("The controller " +:+ probed +:+ " doesn't exist at "
                  +:+ controllers) w (snd out)
  /\ sent (snd out) = sent w
  /\ statusCode (snd out) = statusCode w.
Proof.
  intros Hop Hx Hp Hr out. subst out. run_router. rewrite Hop, Hx, Hp.
  cbv beta iota. rewrite Hr. cbn [fst snd sent statusCode].
  repeat split. log_tail.
Qed.

(** X8. Without an override, when the request path and the contract path
    have the same resource name and that controller can be loaded, the
    name used is the one that was probed. *)
Theorem probed_name_used_on_same_resource `{Platform} (controllers : string)
    (req : Request) (oasDoc : OasDoc) (requestedSpecPath method : string)
    (w : World) (op : Operation) (r : string) (m : jsval) :
  operation_of oasDoc requestedSpecPath method = Ok op ->
  x_router_controller op = None ->
  resourceName (req_path req) = Ok r ->
  resourceName requestedSpecPath = Ok r ->
  require (path_join controllers (r +:+ "Controller")) = Some m ->
  fst (resolveControllerName controllers req oasDoc requestedSpecPath method w)
  = Ok (r +:+ "Controller").
Proof.
  intros Hop Hx Hq Hs Hr. run_router. rewrite Hop, Hx.
  unfold generateControllerName. rewrite Hq, Hs. cbn [mbind result_bind].
  rewrite Hr. reflexivity.
Qed.

Ltac quiet_lines :=
  repeat first [ apply Forall_nil_2 | apply Forall_cons_2 | apply Forall_app_2 ];
  cbn [fst]; auto.

Lemma resolve_frame `{Platform} (controllers : string) (req : Request)
    (oasDoc : OasDoc) (requestedSpecPath method : string) (w : World) :
  let out := resolveControllerName controllers req oasDoc requestedSpecPath
               method w in
  statusCode (snd out) = statusCode w
  /\ headers (snd out) = headers w
  /\ sent (snd out) = sent w
  /\ exists pre, log (snd out) = (log w ++ pre)%list
                 /\ Forall (fun e => fst e = Debug \/ fst e = Info) pre.
Proof.
  intros out. subst out. run_router.
  destruct (operation_of oasDoc requestedSpecPath method) as [op|e];
    [|cbn; repeat split; exists []; rewrite app_nil_r; auto].
  destruct (x_router_controller op);
    [cbn; repeat split; exists []; rewrite app_nil_r; auto|].
  destruct (generateControllerName (req_path req)) as [probed|e];
    [|cbn; repeat split; exists []; rewrite app_nil_r; auto].
  cbv beta iota.
  destruct (require (path_join controllers probed)); cbv beta iota.
  - destruct (generateControllerName requestedSpecPath);
      cbn [fst snd statusCode headers sent log]; repeat split;
      (eexists; split; [reflexivity | quiet_lines]).
  - cbn [fst snd statusCode headers sent log]. repeat split.
    eexists. rewrite <- app_assoc. split; [reflexivity|].
    quiet_lines.
Qed.

(** X9. A request that reaches its handler was resolved to a controller
    whose name is the operation's [x-router-controller], or else the name
    generated from the contract path, or else "Default"; the controller
    called is the module loaded under that name. *)
Theorem dispatched_controller_name `{Platform} (controllers : string)
    (req : Request) (locals : Locals) (w : World) (d : Dispatch) :
  fst (OASRouter controllers req locals w) = Ok d ->
  require (path_join controllers (d_controllerName d)) = Some (d_controller d)
  /\ exists op,
      operation_of (l_oasDoc locals) (l_requestedSpecPath locals)
        (JsString.toLowerCase (req_method req)) = Ok op
      /\ match x_router_controller op with
         | Some c => d_controllerName d = c
         | None =>
             d_controllerName d = "Default"
             \/ generateControllerName (l_requestedSpecPath locals)
                = Ok (d_controllerName d)
         end.
Proof.
  intros Hd. apply OASRouter_inv in Hd as (Hres & _ & Hreq & _).
  split; [exact Hreq|]. revert Hres. run_router.
  destruct (operation_of _ _ _) as [op|e]; [|discriminate].
  destruct (x_router_controller op) as [c|] eqn:Hx.
  - cbn [fst]. intros [= <-]. exists op. now rewrite Hx.
  - destruct (generateControllerName (req_path req)) as [probed|e];
      [|discriminate].
    cbv beta iota. destruct (require (path_join controllers probed)).
    + cbv beta iota. cbn [fst]. intros Hg. exists op. rewrite Hx. auto.
    + cbn [fst]. intros [= <-]. exists op. rewrite Hx. auto.
Qed.

(** X10. When the operation declares no [operationId], the identifier a
    dispatched request was resolved to is "delete" followed by the
    resource name of the contract path, for every request method. *)
Theorem generated_identifier_of_dispatch `{Platform} (controllers : string)
    (req : Request) (locals : Locals) (w : World) (d : Dispatch)
    (op : Operation) :
  fst (OASRouter controllers req locals w) = Ok d ->
  operation_of (l_oasDoc locals) (l_requestedSpecPath locals)
    (JsString.toLowerCase (req_method req)) = Ok op ->
  operationId op = None ->
  exists r, resourceName (l_requestedSpecPath locals) = Ok r
            /\ d_opID d = "delete" +:+ r.
Proof. apply OASRouter_generated_opID. Qed.

(** X11. A declared [operationId] is the identifier of the dispatch,
    verbatim, whatever the method and the path. *)
Theorem declared_identifier_of_dispatch `{Platform} (controllers : string)
    (req : Request) (locals : Locals) (w : World) (d : Dispatch)
    (op : Operation) (id : string) :
  fst (OASRouter controllers req locals w) = Ok d ->
  operation_of (l_oasDoc locals) (l_requestedSpecPath locals)
    (JsString.toLowerCase (req_method req)) = Ok op ->
  operationId op = Some id ->
  d_opID d = id.
Proof.
  intros Hd Hop Hid. apply OASRouter_inv in Hd as (_ & Hgen & _).
  unfold generateOpId in Hgen. rewrite Hop in Hgen.
  cbn [mbind result_bind] in Hgen. rewrite Hid in Hgen.
  now injection Hgen as <-.
Qed.

(** X12. When the resolved controller cannot be loaded, the middleware
    logs "Controller not found: " with the joined path at error level and
    ends the process; no handler is called. *)
Theorem missing_controller_exits `{Platform} (controllers : string)
    (req : Request) (locals : Locals) (w : World) (controllerName opID : string) :
  fst (resolveControllerName controllers req (l_oasDoc locals)
         (l_requestedSpecPath locals) (JsString.toLowerCase (req_method req)) w)
  = Ok controllerName ->
  generateOpId (l_oasDoc locals) (l_requestedSpecPath locals)
    (JsString.toLowerCase (req_method req)) = Ok opID ->
  require (path_join controllers controllerName) = None ->
  let out := OASRouter controllers req locals w in
  fst out = Throw ProcessExit
  /\ logged Error ("Controller not found: "
                   +:+ path_join controllers controllerName) w (snd out).
Proof.
  intros Hres Hid Hr out. subst out.
  pose proof (resolve_frame controllers req (l_oasDoc locals)
                (l_requestedSpecPath locals)
                (JsString.toLowerCase (req_method req)) w)
    as (_ & _ & _ & pre & Hlog & Hpre).
  unfold OASRouter, mbind, M_bind, lift, mret, M_ret, throw, logger.
  cbv beta iota zeta.
  destruct (resolveControllerName _ _ _ _ _ w) as [[cn|e] w1];
    cbn [fst snd] in *; [|discriminate].
  injection Hres as ->.
  rewrite Hid. cbv beta iota. rewrite Hr. cbn [fst snd].
  split; [reflexivity|].
  exists pre. cbn [log]. rewrite Hlog, <- app_assoc. auto.
Qed.

(** X13. The middleware itself never writes to the response: when it
    returns, raises or exits, status code, headers and written payloads
    are what they were, and the log has only grown. *)
Theorem OASRouter_leaves_response `{Platform} (controllers : string)
    (req : Request) (locals : Locals) (w : World) :
  let out := OASRouter controllers req locals w in
  statusCode (snd out) = statusCode w
  /\ headers (snd out) = headers w
  /\ sent (snd out) = sent w
  /\ exists added, log (snd out) = (log w ++ added)%list.
Proof.
  intros out. subst out.
  pose proof (resolve_frame controllers req (l_oasDoc locals)
                (l_requestedSpecPath locals)
                (JsString.toLowerCase (req_method req)) w)
    as (Hst & Hh & Hs & pre & Hlog & _).
  unfold OASRouter, mbind, M_bind, lift, mret, M_ret, throw, logger.
  cbv beta iota zeta.
  destruct (resolveControllerName _ _ _ _ _ w) as [[cn|e] w1];
    cbn [fst snd] in *; [|eauto 10].
  destruct (generateOpId _ _ _) as [id|e]; cbv beta iota;
    [|cbn [snd]; eauto 10].
  destruct (require (path_join controllers cn)) as [m|]; cbv beta iota.
  - destruct (executeFunctionByName id m _ _ _); cbn [snd]; eauto 10.
  - cbn [snd statusCode headers sent log]. repeat split; try assumption.
    exists (pre ++ [(Error, "Controller not found: "
                            +:+ path_join controllers cn)])%list.
    now rewrite Hlog, app_assoc.
Qed.

(** ** More on the decision engine and the installed [res.send] *)

Section Engine.
Context `{Platform}.
Variable config : Config.
Variables (oasDoc : OasDoc) (method requestedSpecPath : string).
Variables (arguments : Arguments) (w : World).

Ltac all_branches :=
  exec;
  destruct (operation_of oasDoc requestedSpecPath method) as [op|e] eqn:Hop;
  cbv beta iota zeta;
  [ destruct (responses op !! JsString.of_Z (statusCode w)) as [rs|] eqn:Hcode;
    [ destruct (content rs) as [c|] eqn:Hc;
      [ destruct (c !! "application/json") as [mt|] eqn:Hmt;
        cbv beta iota zeta;
        [ destruct (JSON_parse (show (arg_0 arguments))) as [d|] eqn:Hparse;
          cbv beta iota zeta;
          [ destruct (validator_validate d (schema mt)) as [errs|] eqn:Hval;
            cbn [String.append String.length Nat.ltb Nat.leb]
          | ]
        | ]
      | ]
    | ]
  | ];
  destruct (strict config) eqn:Hstrict;
  cbn [fst snd statusCode headers sent log].

Lemma checkResponse_keeps_headers :
  headers (snd (checkResponse config oasDoc method requestedSpecPath arguments w))
  = headers w.
Proof. all_branches; reflexivity. Qed.

(** X16. The decision engine completes exactly on its five sending
    branches: the status code is undeclared, or declared without a
    [content] section, or declared with an ['application/json'] entry and
    a payload that parses.  In every other case it raises a [TypeError]
    or a [SyntaxError], never ends the process, and sends nothing. *)
Theorem checkResponse_completes_iff :
  let out := checkResponse config oasDoc method requestedSpecPath arguments w in
  (fst out = Ok tt
   <-> undeclared oasDoc method requestedSpecPath w
       \/ (exists rs, declared oasDoc method requestedSpecPath w rs
                      /\ content rs = None)
       \/ (exists data err,
              validated oasDoc method requestedSpecPath (arg_0 arguments) w
                data err))
  /\ (forall e, fst out = Throw e ->
                (e = TypeError \/ e = SyntaxError) /\ sent (snd out) = sent w).
Proof.
  intros out. subst out. split; [split|].
  - intros Hok. revert Hok.
    all_branches; intros Hok; try discriminate Hok.
    all: first
      [ solve [left; unfold undeclared; eauto]
      | solve [right; left; unfold declared; eauto 6]
      | solve [right; right; exists d; eexists; exists rs, c, mt;
               unfold declared; eauto 10] ].
  - intros Hyp. now apply sends_once_on_every_branch.
  - intros e0. all_branches; intros Hthrow; try discriminate Hthrow;
      injection Hthrow as <-; split; try reflexivity.
    all: try (now left); try (now right).
    all: unfold operation_of in Hop;
      destruct (paths oasDoc !! requestedSpecPath) as [item|];
      [destruct (item !! method); [discriminate Hop|]|];
      injection Hop as <-; now left.
Qed.

(** X19. What is logged follows the mode: with strict mode off no line is
    logged at error level, with strict mode on no line is logged at
    warning level; earlier log lines are kept. *)
Theorem log_level_follows_mode :
  let out := checkResponse config oasDoc method requestedSpecPath arguments w in
  exists added,
    log (snd out) = (log w ++ added)%list
    /\ Forall (fun e => fst e <> (if strict config then Warning else Error))
         added.
Proof.
  intros out. subst out.
  all_branches; rewrite <- ?app_assoc; eexists;
    (split; [reflexivity|]);
    repeat first [ apply Forall_nil_2 | apply Forall_cons_2 ];
    cbn [fst]; discriminate.
Qed.

End Engine.

Lemma checkResponse_completes_iff_witness :
  undeclared Demo.widgets_doc "get" "/widgets" (Demo.world 404)
  /\ fst (checkResponse (H:=Demo.server) Demo.strict_off Demo.widgets_doc "get"
            "/widgets" Shop.no_argument (Demo.world 404)) = Ok tt.
Proof.
  split; [exact widgets_404_undeclared|].
  exact (proj2 (proj1 (checkResponse_completes_iff (H:=Demo.server)
                         Demo.strict_off Demo.widgets_doc "get" "/widgets"
                         Shop.no_argument (Demo.world 404)))
           (or_introl widgets_404_undeclared)).
Defined.

(** ** Runs that witness the resolution properties *)

Lemma items_dispatched :
  fst (OASRouter (H:=Demo.server) "controllers" Shop.get_items
         Shop.items_locals (Demo.world 200)) = Ok Shop.items_dispatch.
Proof. vm_compute. reflexivity. Defined.

Lemma widgets_dispatched :
  fst (OASRouter (H:=Demo.server) "controllers" Demo.get_widgets
         Demo.widgets_locals (Demo.world 200)) = Ok Shop.widgets_dispatch.
Proof. vm_compute. reflexivity. Defined.

Lemma override_dispatches_without_probe_witness :
  x_router_controller Shop.items_op = Some "AcmeController"
  /\ snd (OASRouter (H:=Demo.server) "controllers" Shop.get_items
            Shop.items_locals (Demo.world 200)) = Demo.world 200.
Proof.
  split; [reflexivity|].
  rewrite (override_dispatches_without_probe (H:=Demo.server) "controllers"
             Shop.get_items Shop.items_locals (Demo.world 200) Shop.items_op
             "AcmeController" "deleteAcme" Demo.acme_controller
             ltac:(vm_compute; reflexivity) eq_refl
             ltac:(vm_compute; reflexivity) ltac:(vm_compute; reflexivity)).
  reflexivity.
Defined.

Lemma failed_probe_falls_back_witness :
  @require Demo.server (@path_join Demo.server "controllers" "OrdersController")
  = None
  /\ fst (resolveControllerName (H:=Demo.server) "controllers" Shop.get_orders
            Shop.orders_doc "/orders" "get" (Demo.world 200)) = Ok "Default".
Proof.
  assert (Hr : @require Demo.server
                 (@path_join Demo.server "controllers" "OrdersController")
               = None) by (vm_compute; reflexivity).
  split; [exact Hr|].
  exact (proj1 (failed_probe_falls_back (H:=Demo.server) "controllers"
                  Shop.get_orders Shop.orders_doc "/orders" "get"
                  (Demo.world 200) Shop.orders_op "OrdersController"
                  ltac:(vm_compute; reflexivity) eq_refl eq_refl Hr)).
Defined.

Lemma probed_name_used_on_same_resource_witness :
  resourceName (req_path Demo.get_widgets) = Ok "Widgets"
  /\ resourceName "/widgets" = Ok "Widgets"
  /\ fst (resolveControllerName (H:=Demo.server) "controllers" Demo.get_widgets
            Demo.widgets_doc "/widgets" "get" (Demo.world 200))
     = Ok "WidgetsController".
Proof.
  split; [reflexivity|]. split; [reflexivity|].
  exact (probed_name_used_on_same_resource (H:=Demo.server) "controllers"
           Demo.get_widgets Demo.widgets_doc "/widgets" "get" (Demo.world 200)
           Demo.widgets_op "Widgets" Demo.widgets_controller
           ltac:(vm_compute; reflexivity) eq_refl eq_refl eq_refl
           ltac:(vm_compute; reflexivity)).
Defined.

Lemma dispatched_controller_name_witness :
  fst (OASRouter (H:=Demo.server) "controllers" Demo.get_widgets
         Demo.widgets_locals (Demo.world 200)) = Ok Shop.widgets_dispatch
  /\ @require Demo.server
       (@path_join Demo.server "controllers"
          (d_controllerName Shop.widgets_dispatch))
     = Some (d_controller Shop.widgets_dispatch).
Proof.
  split; [exact widgets_dispatched|].
  exact (proj1 (dispatched_controller_name (H:=Demo.server) "controllers"
                  Demo.get_widgets Demo.widgets_locals (Demo.world 200)
                  Shop.widgets_dispatch widgets_dispatched)).
Defined.

Lemma generated_identifier_of_dispatch_witness :
  operationId Demo.widgets_op = None
  /\ exists r, resourceName "/widgets" = Ok r
               /\ d_opID Shop.widgets_dispatch = "delete" +:+ r.
Proof.
  split; [reflexivity|].
  exact (generated_identifier_of_dispatch (H:=Demo.server) "controllers"
           Demo.get_widgets Demo.widgets_locals (Demo.world 200)
           Shop.widgets_dispatch Demo.widgets_op widgets_dispatched
           ltac:(vm_compute; reflexivity) eq_refl).
Defined.

Lemma declared_identifier_of_dispatch_witness :
  operationId Shop.items_op = Some "deleteAcme"
  /\ d_opID Shop.items_dispatch = "deleteAcme".
Proof.
  split; [reflexivity|].
  exact (declared_identifier_of_dispatch (H:=Demo.server) "controllers"
           Shop.get_items Shop.items_locals (Demo.world 200)
           Shop.items_dispatch Shop.items_op "deleteAcme" items_dispatched
           ltac:(vm_compute; reflexivity) eq_refl).
Defined.

Lemma missing_controller_exits_witness :
  @require Demo.server (@path_join Demo.server "controllers" "Default") = None
  /\ fst (OASRouter (H:=Demo.server) "controllers" Shop.get_orders
            Shop.orders_locals (Demo.world 200)) = Throw ProcessExit.
Proof.
  assert (Hr : @require Demo.server
                 (@path_join Demo.server "controllers" "Default") = None)
    by (vm_compute; reflexivity).
  split; [exact Hr|].
  exact (proj1 (missing_controller_exits (H:=Demo.server) "controllers"
                  Shop.get_orders Shop.orders_locals (Demo.world 200)
                  "Default" "deleteOrders"
                  ltac:(vm_compute; reflexivity)
                  ltac:(vm_compute; reflexivity) Hr)).
Defined.

(** ** The installed [res.send], on every path *)

Ltac enter_send :=
  unfold res_send, mbind, M_bind, res_header; cbv beta iota zeta.

(** X14. One call of the installed [res.send] never reaches the original
    send twice: it completes after exactly one call, or raises before any
    call; payloads written earlier are kept. *)
Theorem res_send_sends_at_most_once `{Platform} (config : Config)
    (i : Interceptor) (args : list value) (w : World) :
  let out := res_send config i args w in
  (fst out = Ok tt
   /\ exists payload, sent (snd out) = (sent w ++ [payload])%list)
  \/ (exists e, fst out = Throw e /\ sent (snd out) = sent w).
Proof.
  intros out. subst out. enter_send.
  exact (sends_at_most_once config (i_oasDoc i) (i_method i)
           (i_requestedSpecPath i) (stringify_first args)
           {| statusCode := statusCode w;
              headers := <["Content-Type":="application/json;charset=utf-8"]>
                           (headers w);
              sent := sent w; log := log w |}).
Qed.

(** X15. The installed [res.send] sets the [Content-Type] header to JSON
    before the outcome of the validation is known: the header is set on
    every path, also when the response is rewritten and when the run
    raises, and no other header is touched. *)
Theorem res_send_sets_content_type `{Platform} (config : Config)
    (i : Interceptor) (args : list value) (w : World) :
  headers (snd (res_send config i args w))
  = <["Content-Type":="application/json;charset=utf-8"]> (headers w).
Proof.
  enter_send.
  exact (checkResponse_keeps_headers config (i_oasDoc i) (i_method i)
           (i_requestedSpecPath i) (stringify_first args)
           {| statusCode := statusCode w;
              headers := <["Content-Type":="application/json;charset=utf-8"]>
                           (headers w);
              sent := sent w; log := log w |}).
Qed.

(** X17. A declared status code whose response has no [content] section:
    the installed [res.send] hands the serialized payload to the original
    send as it is and keeps the status code, in either mode and without
    calling the parser or the validator.  (The payload is the first
    argument; a call without arguments passes none.) *)
Theorem res_send_without_content `{Platform} (config : Config)
    (i : Interceptor) (args : list value) (w : World) (rs : ResponseSpec) :
  declared (i_oasDoc i) (i_method i) (i_requestedSpecPath i) w rs ->
  content rs = None ->
  let out := res_send config i args w in
  let payload := match args with
                 | [] => None
                 | data :: _ => JSON_stringify data
                 end in
  fst out = Ok tt
  /\ statusCode (snd out) = statusCode w
  /\ sent (snd out) = (sent w ++ [payload])%list.
Proof.
  intros Hd Hc out payload. subst out payload.
  rewrite <- first_param_stringify_first. enter_send.
  exact (no_content_passes config (i_oasDoc i) (i_method i)
           (i_requestedSpecPath i) (stringify_first args)
           {| statusCode := statusCode w;
              headers := <["Content-Type":="application/json;charset=utf-8"]>
                           (headers w);
              sent := sent w; log := log w |} rs Hd Hc).
Qed.

Lemma widgets_201_no_body :
  declared Demo.widgets_doc "get" "/widgets" (Demo.world 201) Demo.no_body.
Proof. exists Demo.widgets_op. split; vm_compute; reflexivity. Defined.

Lemma res_send_without_content_witness :
  declared (i_oasDoc Demo.widgets) (i_method Demo.widgets)
    (i_requestedSpecPath Demo.widgets) (Demo.world 201) Demo.no_body
  /\ content Demo.no_body = None
  /\ fst (res_send (H:=Demo.server) Demo.strict_on Demo.widgets [Demo.bad_id]
            (Demo.world 201)) = Ok tt.
Proof.
  split; [exact widgets_201_no_body|]. split; [reflexivity|].
  exact (proj1 (res_send_without_content (H:=Demo.server) Demo.strict_on
                  Demo.widgets [Demo.bad_id] (Demo.world 201) Demo.no_body
                  widgets_201_no_body eq_refl)).
Defined.

(** X18. Where a schema is declared for the status code, a payload whose
    serialized text [JSON.parse] rejects (the text of [undefined], for
    one, as in a call without arguments) makes the installed [res.send]
    raise a [SyntaxError]: nothing is sent and the status code is kept,
    in either mode. *)
Theorem res_send_unparsable_payload `{Platform} (config : Config)
    (i : Interceptor) (args : list value) (w : World) (rs : ResponseSpec)
    (c : gmap string MediaType) (mt : MediaType) :
  declared (i_oasDoc i) (i_method i) (i_requestedSpecPath i) w rs ->
  content rs = Some c ->
  c !! "application/json" = Some mt ->
  JSON_parse (show (JSON_stringify (hd VUndefined args))) = None ->
  let out := res_send config i args w in
  fst out = Throw SyntaxError
  /\ statusCode (snd out) = statusCode w
  /\ sent (snd out) = sent w.
Proof.
  intros Hd Hc Hmt Hp out. subst out. enter_send.
  exact (unparsable_payload_raises config (i_oasDoc i) (i_method i)
           (i_requestedSpecPath i) (stringify_first args)
           {| statusCode := statusCode w;
              headers := <["Content-Type":="application/json;charset=utf-8"]>
                           (headers w);
              sent := sent w; log := log w |} rs c mt Hd Hc Hmt Hp).
Qed.

Lemma widgets_200_json :
  declared Demo.widgets_doc "get" "/widgets" (Demo.world 200)
    (Demo.json_body Demo.id_schema).
Proof. exists Demo.widgets_op. split; vm_compute; reflexivity. Defined.

Lemma res_send_unparsable_payload_witness :
  @JSON_parse Demo.server
    (show (@JSON_stringify Demo.server (hd VUndefined []))) = None
  /\ fst (res_send (H:=Demo.server) Demo.strict_off Demo.widgets []
            (Demo.world 200)) = Throw SyntaxError.
Proof.
  assert (Hp : @JSON_parse Demo.server
                 (show (@JSON_stringify Demo.server (hd VUndefined [])))
               = None)
    by (vm_compute; reflexivity).
  split; [exact Hp|].
  exact (proj1 (res_send_unparsable_payload (H:=Demo.server) Demo.strict_off
                  Demo.widgets [] (Demo.world 200)
                  (Demo.json_body Demo.id_schema)
                  {[ "application/json" := {| schema := Demo.id_schema |} ]}
                  {| schema := Demo.id_schema |}
                  widgets_200_json eq_refl
                  ltac:(vm_compute; reflexivity) Hp)).
Defined.

(** ** Handler invocation, beyond the happy path *)

(** X20. What a successful invocation looks like: the handler got
    exactly the request, the response and the continuation, in this
    order; its [this] is the object reached by following the segments
    before the last; and the function called is the one stored in that
    object under the last segment. *)
Theorem invocation_shape (functionName : string) (context : jsval)
    (req res next : Arg) (inv : Invocation) :
  executeFunctionByName functionName context req res next = Ok inv ->
  args inv = [req; res; next]
  /\ exists before name,
      JsString.split "." functionName = (before ++ [name])%list
      /\ follow before context = Ok (this inv)
      /\ get_prop (this inv) name = Ok (JFunction (callee inv)).
Proof.
  destruct (JsString.split "." functionName) as [|name before _] eqn:Hs
    using rev_ind; [now apply split_not_nil in Hs|].
  rewrite (executeFunctionByName_split _ _ _ _ _ before name Hs).
  destruct (follow before context) as [obj|e] eqn:Hfol;
    cbn [mbind result_bind]; [|discriminate].
  unfold call_handler. destruct (get_prop obj name) as [f|e] eqn:Hf;
    cbn [mbind result_bind]; [|discriminate].
  destruct f as [|fname|props]; try discriminate.
  intros [= <-]. cbn [args this callee]. split; [reflexivity|].
  exists before, name. auto.
Qed.

Lemma invocation_shape_witness :
  executeFunctionByName "admin.purge" Shop.admin_controller
    ArgNext ArgNext ArgNext
  = Ok {| callee := "purge"; this := JObject [("purge", JFunction "purge")];
          args := [ArgNext; ArgNext; ArgNext] |}
  /\ args {| callee := "purge"; this := JObject [("purge", JFunction "purge")];
            args := [ArgNext; ArgNext; ArgNext] |}
     = [ArgNext; ArgNext; ArgNext].
Proof.
  assert (He : executeFunctionByName "admin.purge" Shop.admin_controller
                 ArgNext ArgNext ArgNext
               = Ok {| callee := "purge";
                       this := JObject [("purge", JFunction "purge")];
                       args := [ArgNext; ArgNext; ArgNext] |})
    by reflexivity.
  split; [exact He|].
  exact (proj1 (invocation_shape "admin.purge" Shop.admin_controller
                  ArgNext ArgNext ArgNext _ He)).
Defined.

(** X21. A dotted identifier is resolved one segment at a time: invoking
    "a.rest" on a controller is invoking "rest" on the controller's
    property "a". *)
Theorem invocation_descends (a rest : string) (context context' : jsval)
    (req res next : Arg) :
  ~ In "."%char (list_ascii_of_string a) ->
  get_prop context a = Ok context' ->
  executeFunctionByName (a +:+ "." +:+ rest) context req res next
  = executeFunctionByName rest context' req res next.
Proof.
  intros Hdot Hget.
  destruct (JsString.split "." rest) as [|name before _] eqn:Hs
    using rev_ind; [now apply split_not_nil in Hs|].
  rewrite (executeFunctionByName_split rest _ _ _ _ before name Hs).
  rewrite (executeFunctionByName_split (a +:+ "." +:+ rest) _ _ _ _
             (a :: before) name).
  - cbn [follow]. rewrite Hget. reflexivity.
  - change (a +:+ "." +:+ rest) with (a +:+ String "." rest).
    rewrite (split_app_sep _ _ _ Hdot), Hs. reflexivity.
Qed.

Lemma invocation_descends_witness :
  ~ In "."%char (list_ascii_of_string "admin")
  /\ executeFunctionByName ("admin" +:+ "." +:+ "purge") Shop.admin_controller
       ArgNext ArgNext ArgNext
     = executeFunctionByName "purge" (JObject [("purge", JFunction "purge")])
         ArgNext ArgNext ArgNext.
Proof.
  assert (Hdot : ~ In "."%char (list_ascii_of_string "admin"))
    by (cbn; intuition discriminate).
  split; [exact Hdot|].
  exact (invocation_descends "admin" "purge" Shop.admin_controller
           (JObject [("purge", JFunction "purge")]) ArgNext ArgNext ArgNext
           Hdot eq_refl).
Defined.

(** X23. The operation is looked up under the lower-cased request
    method.  When the contract has no operation for the contract path and
    that method, the middleware raises a [TypeError] at once: no probe,
    no log line, no handler call. *)
Theorem unknown_operation_raises `{Platform} (controllers : string)
    (req : Request) (locals : Locals) (w : World) :
  (forall op, operation_of (l_oasDoc locals) (l_requestedSpecPath locals)
                (JsString.toLowerCase (req_method req)) <> Ok op) ->
  OASRouter controllers req locals w = (Throw TypeError, w).
Proof.
  intros Hno. run_router. unfold operation_of in *.
  destruct (paths (l_oasDoc locals) !! l_requestedSpecPath locals) as [item|];
    [|reflexivity].
  destruct (item !! JsString.toLowerCase (req_method req)) as [op|];
    [|reflexivity].
  now destruct (Hno op).
Qed.

Lemma unknown_operation_raises_witness :
  (forall op, operation_of Shop.orders_doc "/orders"
                (JsString.toLowerCase "POST") <> Ok op)
  /\ OASRouter (H:=Demo.server) "controllers"
       {| req_method := "POST"; req_path := "/orders" |}
       Shop.orders_locals (Demo.world 200)
     = (Throw TypeError, Demo.world 200).
Proof.
  assert (Hno : forall op, operation_of Shop.orders_doc "/orders"
                             (JsString.toLowerCase "POST") <> Ok op)
    by (intros op; vm_compute; discriminate).
  split; [exact Hno|].
  exact (unknown_operation_raises (H:=Demo.server) "controllers"
           {| req_method := "POST"; req_path := "/orders" |}
           Shop.orders_locals (Demo.world 200) Hno).
Defined.
